(** * The dask task-graph core and the into backends, embedded and verified

    Part I embeds the code, one module per source file:

    - [Py]       Python exceptions and fallible computations;
    - [Dask]     the task-graph core that [dask/tests/test_core.py] exercises;
    - [Chunks]   chunked sequences over Python's single-use iterators;
    - [H5py]     [into/backends/h5py.py];
    - [HDFStore] [into/backends/hdfstore.py];
    - [Aws]      [into/backends/aws.py].

    Part II states and proves the properties, one module of facts for each
    module of Part I. *)

From Stdlib Require Import ZArith Lia Ascii String.
From stdpp Require Import base option list gmap strings pretty.

#[local] Set Warnings "-register-all,-abstract-large-number".

(* ===================================================================== *)
(** * Python exceptions and fallible computations                          *)
(* ===================================================================== *)

Module Py.

(** The exception classes that the embedded code raises or lets through. *)
Inductive exn : Type :=
  | MemoryError
  | TypeError
  | ValueError
  | IndexError
  | RuntimeError
  | AssertionError
  | AttributeError
  | IOError
  | S3ResponseError.

(** A Python call either returns or raises. *)
Inductive outcome (A : Type) : Type :=
  | Return (a : A)
  | Raise (e : exn).
Arguments Return {A} a.
Arguments Raise {A} e.

Definition bind {A B : Type} (c : outcome A) (k : A → outcome B) : outcome B :=
  match c with
  | Return a => k a
  | Raise e => Raise e
  end.

Definition raises {A : Type} (c : outcome A) : Prop :=
  match c with Return _ => False | Raise _ => True end.

(** [try: c  except: pass], for a call [c] that changes the state [s] of a
    handle when it returns and leaves it as it is when it raises. *)
Definition try_pass {St : Type} (s : St) (c : outcome St) : outcome St :=
  match c with
  | Return s' => Return s'
  | Raise _ => Return s
  end.

(** The types of the operands of [%] and [/], as far as the code uses
    them. *)
Inductive type : Type := str | int | float.

(** [a % b]: string formatting when [a] is a [str], else arithmetic. *)
Definition mod_type (a b : type) : outcome type :=
  match a, b with
  | str, _ => Return str
  | _, str => Raise TypeError
  | int, int => Return int
  | _, _ => Return float
  end.

(** [a / b] (true division): defined between numbers only. *)
Definition truediv_type (a b : type) : outcome type :=
  match a, b with
  | (int | float), (int | float) => Return float
  | _, _ => Raise TypeError
  end.

(** [range(0, n, step)] for a positive [step], by [fuel] windows at most. *)
Fixpoint range_from (fuel : nat) (i n step : Z) : list Z :=
  match fuel with
  | O => []
  | S fuel' => if (i <? n)%Z then i :: range_from fuel' (i + step) n step
               else []
  end.

Definition range (n : Z) (step : positive) : list Z :=
  range_from (Z.to_nat n) 0 n (Z.pos step).

End Py.

Notation "x ←! c ; k" := (Py.bind c (fun x => k))
  (at level 100, c at next level, right associativity, only parsing).

(* ===================================================================== *)
(** * The task-graph core                                                  *)
(* ===================================================================== *)

Module Dask.

(** ** Values, callables and tasks *)

(** The values the tests compute with: integers, strings and lists. *)
Inductive value : Type :=
  | VInt (z : Z)
  | VStr (s : string)
  | VList (vs : list value).

(** What the evaluation of a task yields.  [CycleOrTooDeep] is the explicit
    runtime failure of the evaluator itself; [Failed e] is an exception [e]
    raised by a callable of the graph. *)
Inductive result (A : Type) : Type :=
  | Value (a : A)
  | Failed (e : Py.exn)
  | CycleOrTooDeep.
Arguments Value {A} a.
Arguments Failed {A} e.
Arguments CycleOrTooDeep {A}.

(** A callable is a pure Python function of its (resolved) arguments. *)
Definition callable : Type := list value → Py.outcome value.

(** A task is a literal, a key, a list task or an application node.  A
    string is a key when the graph binds it and a literal otherwise, as in
    the code; keys are strings, as in the test-suite. *)
Inductive Task : Type :=
  | TInt (z : Z)
  | TStr (s : string)
  | TList (ts : list Task)
  | TApp (f : callable) (args : list Task).

(** A task graph is a mapping from key to task. *)
Abbreviation graph := (gmap string Task).

(** Induction over tasks, through the lists of list tasks and application
    nodes. *)
Section task_induction.
Variable P : Task → Prop.
Hypothesis HInt : ∀ z, P (TInt z).
Hypothesis HStr : ∀ s, P (TStr s).
Hypothesis HList : ∀ ts, Forall P ts → P (TList ts).
Hypothesis HApp : ∀ f args, Forall P args → P (TApp f args).

Fixpoint Task_nested_ind (t : Task) : P t :=
  let all := fix all (l : list Task) : Forall P l :=
    match l with
    | [] => @List.Forall_nil _ P
    | t' :: l' => @List.Forall_cons _ P t' l' (Task_nested_ind t') (all l')
    end in
  match t with
  | TInt z => HInt z
  | TStr s => HStr s
  | TList ts => HList ts (all ts)
  | TApp f args => HApp f args (all args)
  end.
End task_induction.

(** [inc] and [add] of test_core.py. *)
Definition inc : callable := λ vs,
  match vs with
  | [VInt x] => Py.Return (VInt (x + 1))
  | _ => Py.Raise Py.TypeError
  end.

Definition add : callable := λ vs,
  match vs with
  | [VInt x; VInt y] => Py.Return (VInt (x + y))
  | _ => Py.Raise Py.TypeError
  end.

(** ** get *)

(** The callable is invoked once every argument is resolved. *)
Definition call (f : callable) (r : result (list value)) : result value :=
  match r with
  | Value vs => match f vs with
                | Py.Return v => Value v
                | Py.Raise e => Failed e
                end
  | Failed e => Failed e
  | CycleOrTooDeep => CycleOrTooDeep
  end.

(** The result of a sequence whose head resulted in [r] and whose tail in
    [rs]: the first failure, from the left. *)
Definition cons_result (r : result value) (rs : result (list value))
  : result (list value) :=
  match r with
  | Value v => match rs with
               | Value vs => Value (v :: vs)
               | Failed e => Failed e
               | CycleOrTooDeep => CycleOrTooDeep
               end
  | Failed e => Failed e
  | CycleOrTooDeep => CycleOrTooDeep
  end.

Definition as_list (r : result (list value)) : result value :=
  match r with
  | Value vs => Value (VList vs)
  | Failed e => Failed e
  | CycleOrTooDeep => CycleOrTooDeep
  end.

(** Modelled from the spec: [get] of dask/core.py, of which only the
    test-suite is at hand.
    "Resolution is recursive: a key resolves to its task, which is itself
    resolved; a list is resolved element-wise preserving nesting structure;
    an application node is resolved by first resolving each argument, then
    invoking the callable.  A value not present as a graph key is returned
    as a literal."  "if resolution recursion exceeds the platform's safe
    call-stack depth [...] the implementation must convert a
    stack-overflow-class failure into an explicit 'graph has a cycle or is
    too deep' error".  [depth] is that safe depth, counted in successive key
    resolutions: resolving one more key than it allows is the
    Cycle-Or-Too-Deep failure.  Elements and arguments are resolved from
    left to right and the first failure is the result. *)
Fixpoint get (depth : nat) (g : graph) : Task → result value :=
  fix resolve (t : Task) : result value :=
    match t with
    | TInt z => Value (VInt z)
    | TStr s =>
        match g !! s with
        | None => Value (VStr s)
        | Some t' =>
            match depth with
            | O => CycleOrTooDeep
            | S d => get d g t'
            end
        end
    | TList ts =>
        as_list ((fix each (l : list Task) : result (list value) :=
                    match l with
                    | [] => Value []
                    | t' :: l' => cons_result (resolve t') (each l')
                    end) ts)
    | TApp f args =>
        call f ((fix each (l : list Task) : result (list value) :=
                   match l with
                   | [] => Value []
                   | t' :: l' => cons_result (resolve t') (each l')
                   end) args)
    end.

(** The same resolution over a sequence of tasks. *)
Fixpoint get_each (depth : nat) (g : graph) (l : list Task)
  : result (list value) :=
  match l with
  | [] => Value []
  | t :: l' => cons_result (get depth g t) (get_each depth g l')
  end.

(** A result that is not the failure of the platform's depth. *)
Definition settled {A : Type} (r : result A) : Prop :=
  match r with CycleOrTooDeep => False | _ => True end.

(** [get(g, k)] has the result [r] on a platform that is deep enough. *)
Definition evaluates (g : graph) (k : string) (r : result value) : Prop :=
  settled r ∧ ∃ depth, get depth g (TStr k) = r.

(** [g2] yields at [k] what [g1] yields, within the same depth, and nothing
    that [g1] would not yield at some depth. *)
Definition same_value (g1 g2 : graph) (k : string) : Prop :=
  (∀ n r, settled r → get n g1 (TStr k) = r → get n g2 (TStr k) = r) ∧
  (∀ n r, settled r → get n g2 (TStr k) = r → ∃ m, get m g1 (TStr k) = r).

(** ** Dependencies and substitution *)

(** The strings of a task, one entry per occurrence. *)
Fixpoint strings_of (t : Task) : list string :=
  match t with
  | TInt _ => []
  | TStr s => [s]
  | TList ts => concat (map strings_of ts)
  | TApp _ args => concat (map strings_of args)
  end.

(** The key occurrences of a task: its strings that the graph binds. *)
Definition references (g : graph) (t : Task) : list string :=
  filter (λ s, is_Some (g !! s)) (strings_of t).

(** Modelled from the spec: [get_dependencies] of dask/core.py, of which
    only the test-suite is at hand.  "the set of distinct keys that the task at key directly
    references, recursing into nested application nodes and nested lists
    but not evaluating them". *)
Definition get_dependencies (g : graph) (k : string) : gset string :=
  match g !! k with
  | Some t => list_to_set (references g t)
  | None => ∅
  end.

(** Modelled from the spec: [subs] of dask/core.py, of which only the
    test-suite is at hand.
    "returns a new task with every occurrence of key (as a bare key or
    inside nested lists) replaced by value". *)
Fixpoint subs (t : Task) (key : string) (val : Task) : Task :=
  match t with
  | TInt z => TInt z
  | TStr s => if decide (s = key) then val else TStr s
  | TList ts => TList (map (λ t', subs t' key val) ts)
  | TApp f args => TApp f (map (λ t', subs t' key val) args)
  end.

(** ** fuse *)

(** Modelled from the spec: the dependents that [fuse] of dask/core.py
    counts, "exactly one dependent": the keys whose task depends on [c]. *)
Definition dependents (g : graph) (c : string) : list string :=
  filter (λ p, c ∈ get_dependencies g p) (map_to_list g).*1.

(** Modelled from the spec: the keys that [fuse] of dask/core.py
    eliminates.  [c] is an intermediate key of a linear chain: it has one
    dependent, another key, and the task of that key references [c] once and
    no other key.  (test_fuse: in [{z: (add, a, b), a: 1, b: 2}] neither
    [a] nor [b] is fused into [z], and in [{b: (inc, a), c: (add, b, b)}]
    [b] stays.) *)
Definition linear_link (g : graph) (c : string) : bool :=
  match dependents g c with
  | [p] => bool_decide (p ≠ c) &&
           bool_decide (references g <$> g !! p = Some [c])
  | _ => false
  end.

(** Modelled from the spec: one step of [fuse] of dask/core.py, "inline that
    dependency's task directly into the dependent's task, eliminating the
    intermediate key from the graph", for the key [c] and its only
    dependent. *)
Definition fuse_step (g : graph) (c : string) : graph :=
  match g !! c, dependents g c with
  | Some tc, [p] =>
      if decide (p = c) then g
      else match g !! p with
           | Some tp => <[p := subs tp c tc]> (delete c g)
           | None => g
           end
  | _, _ => g
  end.

(** Modelled from the spec: [fuse] of dask/core.py, of which only the
    test-suite is at hand.
    "linear-chain fusion: for every key whose task has dependencies, if a
    dependency key has exactly one dependent (this key) and is not itself a
    final/root requirement, inline that dependency's task directly into the
    dependent's task, eliminating the intermediate key from the graph.
    This is applied transitively along single-consumer chains".  The
    intermediate keys are those of the graph given; as a chain collapses,
    the dependent of a key is looked up in the graph built so far. *)
Definition fuse (g : graph) : graph :=
  foldl fuse_step g (filter (λ c, linear_link g c = true) (map_to_list g).*1).

(** ** The graphs of the test-suite *)

(** The five graphs of test_fuse. *)
Definition test_fuse_1 : graph := list_to_map
  [("w", TApp inc [TStr "x"]); ("x", TApp inc [TStr "y"]);
   ("y", TApp inc [TStr "z"]); ("z", TApp add [TStr "a"; TStr "b"]);
   ("a", TInt 1); ("b", TInt 2)].

Definition test_fuse_2 : graph := list_to_map
  [("NEW", TApp inc [TStr "y"]); ("w", TApp inc [TStr "x"]);
   ("x", TApp inc [TStr "y"]); ("y", TApp inc [TStr "z"]);
   ("z", TApp add [TStr "a"; TStr "b"]); ("a", TInt 1); ("b", TInt 2)].

Definition test_fuse_3 : graph := list_to_map
  [("v", TApp inc [TStr "y"]); ("u", TApp inc [TStr "w"]);
   ("w", TApp inc [TStr "x"]); ("x", TApp inc [TStr "y"]);
   ("y", TApp inc [TStr "z"]); ("z", TApp add [TStr "a"; TStr "b"]);
   ("a", TApp inc [TStr "c"]); ("b", TApp inc [TStr "d"]);
   ("c", TInt 1); ("d", TInt 2)].

Definition test_fuse_4 : graph := list_to_map
  [("a", TApp inc [TStr "x"]); ("b", TApp inc [TStr "x"]);
   ("c", TApp inc [TStr "x"]); ("d", TApp inc [TStr "c"]);
   ("x", TApp inc [TStr "y"]); ("y", TInt 0)].

Definition test_fuse_5 : graph := list_to_map
  [("a", TInt 1); ("b", TApp inc [TStr "a"]);
   ("c", TApp add [TStr "b"; TStr "b"])].

(** The graphs of test_get and of test_data_not_in_dict_is_ok. *)
Definition test_get_d : graph := list_to_map
  [(":x", TInt 1); (":y", TApp inc [TStr ":x"]);
   (":z", TApp add [TStr ":x"; TStr ":y"])].

Definition test_data_not_in_dict : graph := list_to_map
  [("x", TInt 1); ("y", TApp add [TStr "x"; TInt 10])].

(** ['x%s' % i] *)
Definition x (i : nat) : string := "x" +:+ pretty i.

(** test_get_stack_limit:
    [dict(('x%s' % (i+1), (inc, 'x%s' % i)) for i in range(n))] followed by
    [d['x0'] = 0]. *)
Definition chain (n : nat) : graph :=
  <[x 0 := TInt 0]>
    (list_to_map ((λ i, (x (S i), TApp inc [TStr (x i)])) <$> seq 0 n)).


End Dask.

(* ===================================================================== *)
(** * Chunked sequences and single-use iterators                           *)
(* ===================================================================== *)

Module Chunks.

(** Python's iterator objects, by address: each holds the items it has yet
    to yield.  An iterator is consumed by use and cannot be rewound. *)
Abbreviation heap A := (gmap nat (list A)).

Section chunks.
Context {A : Type}.
#[local] Abbreviation heap := (heap A).

(** A new iterator object over [items]. *)
Definition alloc (items : list A) (h : heap) : nat * heap :=
  let it := fresh (dom h) in (it, <[it := items]> h).

(** [next(it)]: the next item, or nothing (StopIteration). *)
Definition next (it : nat) (h : heap) : option A * heap :=
  match h !! it with
  | Some (a :: rest) => (Some a, <[it := rest]> h)
  | _ => (None, h)
  end.

(** What a chunked sequence is built from: a zero-argument callable that
    returns an iterator, a generator object, or a list. *)
Inductive source : Type :=
  | Factory (f : heap → nat * heap)
  | Generator (it : nat)
  | Sequence (l : list A).

(** Modelled from the spec: the class [Chunks] of into/chunks.py, which the
    backends import and whose source is not at hand.  "a wrapper around a zero-argument factory that, each
    time invoked, produces a fresh iterator over sub-pieces"; "on each
    independent iteration request, invokes the factory anew and yields the
    pieces it produces, in order".  The backends also wrap objects that are
    not callable (a generator object in h5py.py, a list in hdfstore.py): an
    iteration request on those is Python's [iter] of the wrapped object,
    which for a generator object is that same object. *)
Record Chunks : Type := chunks { data : source }.

(** [iter(c)]: one iteration request. *)
Definition iter (c : Chunks) (h : heap) : nat * heap :=
  match data c with
  | Factory f => f h
  | Generator it => (it, h)
  | Sequence l => alloc l h
  end.

(** [list(it)]: everything the iterator still yields; it is exhausted
    afterwards. *)
Definition drain (it : nat) (h : heap) : list A * heap :=
  match h !! it with
  | Some items => (items, <[it := []]> h)
  | None => ([], h)
  end.

(** [list(c)]: one full iteration of the chunked sequence. *)
Definition iterate (c : Chunks) (h : heap) : list A * heap :=
  let (it, h') := iter c h in drain it h'.

End chunks.
Arguments source A : clear implicits.
Arguments Chunks A : clear implicits.
End Chunks.

(* ===================================================================== *)
(** * into/backends/h5py.py                                                *)
(* ===================================================================== *)

Module H5py.
Import Py.
#[local] Open Scope Z_scope.

(** ** Arrays, files and datasets *)

(** A numpy array: its shape and its elements in row-major order. *)
Record ndarray : Type := array { shape : list Z; flat : list Z }.

(** An [h5py.File] handle. *)
Record File : Type := file { filename : string; is_open : bool }.

(** An [h5py.Dataset]: the file that owns it, its shape, the largest shape
    it may be resized to ([None] for an unlimited dimension), whether its
    storage is chunked, its elements in row-major order and the value that
    new elements get. *)
Record Dataset : Type := dataset {
  dfile : File;
  dshape : list Z;
  maxshape : list (option Z);
  chunked : bool;
  dflat : list Z;
  fillvalue : Z;
}.

Definition product (l : list Z) : Z := foldr Z.mul 1 l.
Definition sum (l : list Z) : Z := foldr Z.add 0 l.

(** [dset.size] *)
Definition size (dset : Dataset) : Z := product (dshape dset).

(** The number of elements of one row (one index of the leading
    dimension). *)
Definition row_size (sh : list Z) : Z := product (tail sh).

(** [len(x)]: the leading extent; a 0-d array has none. *)
Definition len (x : ndarray) : outcome Z :=
  match shape x with
  | [] => Raise TypeError
  | n :: _ => Return n
  end.

(** [dset[:]] *)
Definition getitem_all (dset : Dataset) : ndarray :=
  array (dshape dset) (dflat dset).

(** [dset[i:j]] for [0 <= i <= j]: the rows from [i] up to [j], or up to the
    end when the dataset is shorter. *)
Definition getitem_rows (dset : Dataset) (i j : Z) : ndarray :=
  let n := hd 0 (dshape dset) in
  let rs := row_size (dshape dset) in
  let j' := Z.min j n in
  array ((j' - i) :: tail (dshape dset))
        (take (Z.to_nat ((j' - i) * rs)) (drop (Z.to_nat (i * rs)) (dflat dset))).

(** ** h5py's resize and write, as [append_h5py] calls them *)

(** [n] fits under the bound [m] of [maxshape]. *)
Definition within (n : Z) (m : option Z) : bool :=
  match m with None => true | Some m' => n <=? m' end.

(** [dset.resize(shape)] for a [shape] that differs from [dset.shape] in the
    leading extent only, here [n]: h5py refuses to resize a dataset that is
    not chunked (TypeError) or beyond [maxshape]; new rows hold the fill
    value, rows beyond [n] are dropped. *)
Definition resize_leading (dset : Dataset) (n : Z) : outcome Dataset :=
  if negb (chunked dset) then Raise TypeError
  else if negb (within n (hd None (maxshape dset))) then Raise ValueError
  else
    let rs := row_size (dshape dset) in
    let old := hd 0 (dshape dset) in
    Return (dataset (dfile dset) (n :: tail (dshape dset)) (maxshape dset)
              (chunked dset)
              (take (Z.to_nat (n * rs)) (dflat dset)
                 ++ replicate (Z.to_nat ((n - old) * rs)) (fillvalue dset))
              (fillvalue dset)).

(** The shapes h5py broadcasts to a selection of shape [sel]: aligned from
    the last dimension, each extent is 1 or that of the selection, and
    extents left over are at most 1. *)
Fixpoint broadcastable_rev (src sel : list Z) : bool :=
  match src, sel with
  | [], _ => true
  | t :: src', c :: sel' =>
      ((t =? 1) || (t =? c)) && broadcastable_rev src' sel'
  | _, [] => forallb (λ t, t <=? 1) src
  end.

Definition broadcastable (src sel : list Z) : bool :=
  broadcastable_rev (rev src) (rev sel).

(** The shape [src] aligned with a selection of [rank] dimensions: its last
    [rank] extents, with extents of 1 in front when it has fewer. *)
Definition aligned (src : list Z) (rank : nat) : list Z :=
  replicate (rank - length src) 1 ++ drop (length src - rank) src.

(** The elements of an array of shape [src], repeated along the dimensions
    where [src] has the extent 1 and the selection [sel] a larger one; [src]
    and [sel] have the same rank. *)
Fixpoint broadcast (src sel : list Z) (elements : list Z) : list Z :=
  match src, sel with
  | t :: src', c :: sel' =>
      let rs := Z.to_nat (product src') in
      let blocks :=
        (λ i, broadcast src' sel' (take rs (drop (i * rs) elements)))
          <$> seq 0 (Z.to_nat t) in
      if t =? c then concat blocks
      else concat (replicate (Z.to_nat c) (concat blocks))
  | _, _ => elements
  end.

(** [dset[-k:] = x] for [0 <= k].  Python reads [-0] as [0], so for [k = 0]
    the selection is the whole dataset, and otherwise its last [k] rows (all
    of them when there are fewer).  h5py returns at once when the selection
    holds no element, raises TypeError when the shape of [x] does not
    broadcast to the selection, and else writes [x], broadcast, over the
    selection; HDF5 refuses to write an array of no element over a
    selection that holds elements. *)
Definition setitem_tail (dset : Dataset) (k : Z) (x : ndarray)
  : outcome Dataset :=
  let n := hd 0 (dshape dset) in
  let rs := row_size (dshape dset) in
  let start := if k =? 0 then 0 else Z.max (n - k) 0 in
  let sel := (n - start) :: tail (dshape dset) in
  if product sel =? 0 then Return dset
  else if negb (broadcastable (shape x) sel) then Raise TypeError
  else if product (shape x) =? 0 then Raise IOError
  else
    Return (dataset (dfile dset) (dshape dset) (maxshape dset) (chunked dset)
              (take (Z.to_nat (start * rs)) (dflat dset)
                 ++ broadcast (aligned (shape x) (length sel)) sel (flat x))
              (fillvalue dset)).

(** ** cleanup *)

(** [f.close()]: h5py invalidates the file and every object opened from it;
    closing a handle that is no longer valid raises. *)
Definition File_close (f : File) : outcome File :=
  if is_open f then Return (file (filename f) false) else Raise ValueError.

(** [dset.file]: the file of a dataset whose file has been closed cannot be
    retrieved. *)
Definition Dataset_file (dset : Dataset) : outcome File :=
  if is_open (dfile dset) then Return (dfile dset) else Raise ValueError.

Definition with_file (dset : Dataset) (f : File) : Dataset :=
  dataset f (dshape dset) (maxshape dset) (chunked dset) (dflat dset)
    (fillvalue dset).

(** [[
@cleanup.register(h5py.File)
def cleanup_file(f):
    try:
        f.close()
    except:
        pass
]] *)
Definition cleanup_file (f : File) : outcome File :=
  try_pass f (File_close f).

(** [[
@cleanup.register(h5py.Dataset)
def cleanup_dataset(dset):
    dset.file.close()
]] *)
Definition cleanup_dataset (dset : Dataset) : outcome Dataset :=
  f ←! Dataset_file dset;
  f' ←! File_close f;
  Return (with_file dset f').

(** ** append *)

(** [[
@append.register(h5py.Dataset, np.ndarray)
def append_h5py(dset, x, **kwargs):
    if not sum(x.shape):
        return dset
    shape = list(dset.shape)
    shape[0] += len(x)
    dset.resize(shape)
    dset[-len(x):] = x
    return dset
]] *)
Definition append_h5py (dset : Dataset) (x : ndarray) : outcome Dataset :=
  if sum (shape x) =? 0 then Return dset
  else
    n ←! match dshape dset with
          | [] => Raise IndexError
          | n :: _ => Return n
          end;
    k ←! len x;
    dset' ←! resize_leading dset (n + k);
    k' ←! len x;
    setitem_tail dset' k' x.

(** ** convert *)

(** [[
@convert.register(np.ndarray, h5py.Dataset, cost=3.0)
def h5py_to_numpy(dset, force=False, **kwargs):
    if dset.size > 1e9:
        raise MemoryError("File size is large: %0.2f GB.\n"
                          "Convert with flag force=True to force loading" %
                          dset.size / 1e9)
    else:
        return dset[:]
]]
    The argument of [MemoryError] is [("..." % dset.size) / 1e9]: [%] and [/]
    have the same precedence and group from the left.  Nothing reads
    [force]. *)
Definition h5py_to_numpy (dset : Dataset) (force : bool) : outcome ndarray :=
  if 10 ^ 9 <? size dset then
    formatted ←! mod_type str int;
    message ←! truediv_type formatted float;
    Raise MemoryError
  else Return (getitem_all dset).

(** [[
@convert.register(Iterator, h5py.Dataset, cost=5.0)
def h5py_to_numpy_iterator(t, chunksize=1e7, **kwargs):
    chunksize = int(chunksize)
    for i in range(0, t.shape[0], chunksize):
        yield t[i: i + chunksize]
]]
    The items of the generator, for a dataset that is not written to while
    it is iterated and a positive [chunksize]. *)
Definition h5py_to_numpy_items (t : Dataset) (chunksize : positive)
  : list ndarray :=
  (λ i, getitem_rows t i (i + Z.pos chunksize))
    <$> range (hd 0 (dshape t)) chunksize.

(** Calling the generator function makes a generator object. *)
Definition h5py_to_numpy_iterator (t : Dataset) (chunksize : positive)
    (h : Chunks.heap ndarray) : nat * Chunks.heap ndarray :=
  Chunks.alloc (h5py_to_numpy_items t chunksize) h.

(** [[
@convert.register(chunks(np.ndarray), h5py.Dataset, cost=3.0)
def h5py_to_numpy_chunks(t, chunksize=2 ** 20, **kwargs):
    return chunks(np.ndarray)(h5py_to_numpy_iterator(t, chunksize=chunksize, **kwargs))
]] *)
Definition h5py_to_numpy_chunks (t : Dataset) (chunksize : positive)
    (h : Chunks.heap ndarray)
  : Chunks.Chunks ndarray * Chunks.heap ndarray :=
  let (it, h') := h5py_to_numpy_iterator t chunksize h in
  (Chunks.chunks (Chunks.Generator it), h').

(** ** Datasets and arrays to evaluate the code on *)

(** A dataset of three rows, read two rows at a time. *)
Definition three_rows : Dataset :=
  dataset (file "data.h5" true) [3] [None] true [10; 20; 30] 0.

(** A dataset of 10^9 + 1 elements. *)
Definition gigaelement : Dataset :=
  dataset (file "big.h5" true) [10 ^ 9 + 1] [None] true
    (replicate (Z.to_nat (10 ^ 9 + 1)) 0) 0.

(** A dataset whose file is open. *)
Definition open_dataset : Dataset :=
  dataset (file "data.h5" true) [3] [None] true [10; 20; 30] 0.

(** A dataset of three rows of five and an incoming array of no row of
    five. *)
Definition three_by_five : Dataset :=
  dataset (file "data.h5" true) [3; 5] [None; Some 5] true
    [1; 2; 3; 4; 5; 6; 7; 8; 9; 10; 11; 12; 13; 14; 15] 0.

Definition none_by_five : ndarray := array [0; 5] [].

(** A dataset of three rows of nothing and an incoming array of five. *)
Definition three_by_none : Dataset :=
  dataset (file "data.h5" true) [3; 0] [None; None] true [] 0.

Definition five_by_none : ndarray := array [5; 0] [].

(** A 0-d array: no extent, one element. *)
Definition scalar : ndarray := array [] [7].

End H5py.

(* ===================================================================== *)
(** * into/backends/hdfstore.py                                            *)
(* ===================================================================== *)

Module HDFStore.
Import Py.

(** ** Frames and tables *)

(** A [pd.DataFrame]: its columns and its rows. *)
Record DataFrame : Type := frame {
  columns : list string;
  rows : list (list Z);
}.

(** What a storer [t] stands for: the table node [t.table] of the group
    named [name], with PyTables' [autoindex] flag, whether rows were added
    that its indexes do not cover yet, and how often the indexes were
    rebuilt by hand.  Every storer of the node shares this state. *)
Record Table : Type := table {
  name : string;
  tcolumns : list string;
  trows : list (list Z);
  autoindex : bool;
  dirty : bool;
  reindexed : nat;
}.

(** A statement that works on the table and may raise: what it returns or
    raises, and the table as it leaves it. *)
Definition stmt (A : Type) : Type := Table → outcome A * Table.

(** [t.table.autoindex = b] *)
Definition set_autoindex (b : bool) (t : Table) : Table :=
  table (name t) (tcolumns t) (trows t) b (dirty t) (reindexed t).

(** [t.table.reindex_dirty()]: PyTables rebuilds the indexes that are
    dirty. *)
Definition reindex_dirty (t : Table) : Table :=
  table (name t) (tcolumns t) (trows t) (autoindex t) false
    (if dirty t then S (reindexed t) else reindexed t).

(** [t.parent.append(name, data)]: pandas refuses a frame whose columns are
    not those of the table; PyTables keeps the indexes up to date while
    [autoindex] is on and marks them dirty otherwise. *)
Definition HDFStore_append (data : DataFrame) : stmt unit := λ t,
  if bool_decide (columns data = tcolumns t) then
    (Return (),
     table (name t) (tcolumns t) (trows t ++ rows data) (autoindex t)
       (dirty t || negb (autoindex t)) (reindexed t))
  else (Raise ValueError, t).

(** ** append *)

(** [[
@append.register(hdf.AppendableFrameTable, pd.DataFrame)
def append_frame_to_hdfstore(t, data, **kwargs):
    name = t.group._v_name
    t.parent.append(name, data)
    return t.parent.get_storer(name)
]]
    The storer returned is a storer of the same node. *)
Definition append_frame_to_hdfstore (data : DataFrame) : stmt unit :=
  HDFStore_append data.

(** [[
    for chunk in data:
        t = append_frame_to_hdfstore(t, chunk, **kwargs)
]] *)
Fixpoint append_each (data : list DataFrame) : stmt unit := λ t,
  match data with
  | [] => (Return (), t)
  | chunk :: data' =>
      match append_frame_to_hdfstore chunk t with
      | (Return _, t') => append_each data' t'
      | (Raise e, t') => (Raise e, t')
      end
  end.

(** [[
@contextmanager
def ensure_indexing(t):
    t.table.autoindex=False
    yield
    t.table.autoindex=True
    t.table.reindex_dirty()
]]
    [with ensure_indexing(t): body].  contextlib runs the generator up to
    its [yield], then the body.  When the body returns, the generator is
    resumed and runs to its end.  When the body raises, the exception is
    thrown into the generator at the [yield]; no [try] statement encloses
    that [yield], so the exception leaves the generator there and the
    statements after the [yield] are not run. *)
Definition ensure_indexing {A : Type} (body : stmt A) : stmt A := λ t,
  match body (set_autoindex false t) with
  | (Return a, t') => (Return a, reindex_dirty (set_autoindex true t'))
  | (Raise e, t') => (Raise e, t')
  end.

(** [[
@append.register(hdf.AppendableFrameTable, chunks(pd.DataFrame))
def append_chunks_to_hdfstore(t, data, **kwargs):
    with ensure_indexing(t):
        for chunk in data:
            t = append_frame_to_hdfstore(t, chunk, **kwargs)
    return t
]]
    [data] stands for the frames that iterating the chunks yields. *)
Definition append_chunks_to_hdfstore (data : list DataFrame) : stmt unit :=
  ensure_indexing (append_each data).

(** ** convert *)

(** [t.parent.select(name, chunksize=chunksize)]: pandas' iterator over the
    rows of the table, [chunksize] at a time. *)
Definition select_chunks (t : Table) (chunksize : positive)
  : list DataFrame :=
  (λ i, frame (tcolumns t)
          (take (Pos.to_nat chunksize) (drop (Z.to_nat i) (trows t))))
    <$> range (Z.of_nat (length (trows t))) chunksize.

(** [[
@convert.register(chunks(pd.DataFrame), hdf.AppendableFrameTable, cost=5.0)
def hdfstore_to_dataframe_chunks(t, chunksize=1e7, **kwargs):
    def load():
        return t.parent.select(t.group._v_name, chunksize=chunksize, **kwargs)
    return chunks(pd.DataFrame)(load)
]]
    for a table that is not written to between the iterations. *)
Definition hdfstore_to_dataframe_chunks (t : Table) (chunksize : positive)
  : Chunks.Chunks DataFrame :=
  let load := λ h, Chunks.alloc (select_chunks t chunksize) h in
  Chunks.chunks (Chunks.Factory load).

(** ** cleanup *)

(** A [pd.HDFStore] handle, the [t.parent] of a storer. *)
Record Store : Type := store { store_path : string; store_open : bool }.

Section cleanup.
(** [t.parent.close()], as pandas has it. *)
Variable HDFStore_close : Store → outcome Store.

(** [[
@dispatch(hdf.AppendableFrameTable)
def cleanup(t):
    try:
        t.parent.close()
    except:
        pass
]] *)
Definition cleanup (parent : Store) : outcome Store :=
  try_pass parent (HDFStore_close parent).
End cleanup.

(** ** A table and frames to evaluate the code on *)

(** A table that holds one row already, a frame that fits it and a frame
    that does not. *)
Definition populated : Table :=
  table "bar" ["volume"; "planet"] [[100%Z; 1%Z]] true false 0.

Definition fitting : DataFrame :=
  frame ["volume"; "planet"] [[200%Z; 2%Z]].
Definition unfitting : DataFrame := frame ["volume"] [[300%Z]].

End HDFStore.

(* ===================================================================== *)
(** * into/backends/aws.py                                                 *)
(* ===================================================================== *)

Module Aws.
Import Py.

(** Bytes, as a list of characters. *)
Abbreviation bytes := (list ascii).

Definition CR : ascii := "013"%char.
Definition LF : ascii := "010"%char.

(** ** Connections *)

(** Where credentials may come from besides the arguments: the
    [Credentials] section of boto's configuration and the environment. *)
Record Settings : Type := settings {
  cfg_aws_access_key_id : option string;
  cfg_aws_secret_access_key : option string;
  env_AWS_ACCESS_KEY_ID : option string;
  env_AWS_SECRET_ACCESS_KEY : option string;
}.

(** The arguments of one call of [get_s3_connection]: [None] for a
    credential is Python's [None]; [anon] is [None] when the call leaves it
    to its default. *)
Record Call : Type := call {
  aws_access_key_id : option string;
  aws_secret_access_key : option string;
  anon : option bool;
}.

#[global] Instance Call_eq_dec : EqDecision Call.
Proof. solve_decision. Defined.

(** A connection object, as [boto.connect_s3] makes it: [conn_id] tells the
    objects apart. *)
Record Connection : Type := connection {
  conn_id : nat;
  conn_key : option string;
  conn_secret : option string;
  conn_anon : bool;
}.

(** The memo table of [get_s3_connection] and the number of connections
    made so far. *)
Record Memo : Type := memo_state {
  memo : Call → option Connection;
  made : nat;
}.

(** [if a is None: a = b] *)
Definition if_none (a b : option string) : option string :=
  match a with Some _ => a | None => b end.

(** [[
def get_s3_connection(aws_access_key_id, aws_secret_access_key, anon=False):
    cfg = boto.Config()
    if aws_access_key_id is None:
        aws_access_key_id = cfg.get('Credentials', 'aws_access_key_id')
    if aws_access_key_id is None:
        aws_access_key_id = os.environ.get('AWS_ACCESS_KEY_ID')
    if aws_secret_access_key is None:
        aws_secret_access_key = cfg.get('Credentials', 'aws_secret_access_key')
    if aws_secret_access_key is None:
        aws_secret_access_key = os.environ.get('AWS_SECRET_ACCESS_KEY')
    anon = (not anon and
            aws_access_key_id is None and
            aws_secret_access_key is None)
    return boto.connect_s3(aws_access_key_id, aws_secret_access_key,
                           anon=anon)
]]
    The body, which makes the connection object number [id]. *)
Definition connect (s : Settings) (c : Call) (id : nat) : Connection :=
  let key := if_none (if_none (aws_access_key_id c) (cfg_aws_access_key_id s))
                     (env_AWS_ACCESS_KEY_ID s) in
  let secret :=
    if_none (if_none (aws_secret_access_key c) (cfg_aws_secret_access_key s))
            (env_AWS_SECRET_ACCESS_KEY s) in
  let anon' := negb (default false (anon c))
               && bool_decide (key = None) && bool_decide (secret = None) in
  connection id key secret anon'.

(** [@memoize]: a call whose arguments are in the memo table returns the
    object stored there; any other call runs the body and stores what it
    returns. *)
Definition get_s3_connection (s : Settings) (c : Call) (m : Memo)
  : Connection * Memo :=
  match memo m c with
  | Some conn => (conn, m)
  | None =>
      let conn := connect s c (made m) in
      (conn,
       memo_state (λ c', if decide (c' = c) then Some conn else memo m c')
                  (S (made m)))
  end.

(** ** sample *)

(** [raw.rindex(sub)]: the highest index at which [sub] occurs in [raw], if
    it occurs. *)
Fixpoint rindex (sub raw : bytes) : option nat :=
  match raw with
  | [] => if bool_decide (sub = []) then Some 0 else None
  | _ :: raw' =>
      match rindex sub raw' with
      | Some i => Some (S i)
      | None => if bool_decide (sub `prefix_of` raw) then Some 0 else None
      end
  end.

(** [get_contents_as_string(headers={'Range': 'bytes=0-%d' % length})]: the
    bytes of the object from 0 to [length], both included. *)
Definition get_range (object : bytes) (length : nat) : bytes :=
  take (S length) object.

(** The local files, by path. *)
Abbreviation files := (gmap string bytes).

(** [[
def sample_s3_csv(data, length=8192):
    headers = {'Range': 'bytes=0-%d' % length}
    raw = data.object.get_contents_as_string(headers=headers)
    try:
        index = raw.rindex(b'\r\n')
    except ValueError:
        index = raw.rindex(b'\n')
    raw = raw[:index]
    with tmpfile('.csv') as fn:
        with open(fn, 'wb') as f:
            f.write(raw)
        yield fn
]]
    [fn] is the name that [tmpfile] makes up.  The result is what the scope
    of use sees: the path yielded and the files as they are then. *)
Definition sample_s3_csv (object : bytes) (length : nat) (fn : string)
    (fs : files) : outcome (string * files) :=
  let raw := get_range object length in
  index ←! match rindex [CR; LF] raw with
            | Some i => Return i
            | None => match rindex [LF] raw with
                      | Some i => Return i
                      | None => Raise ValueError
                      end
            end;
  Return (fn, <[fn := take index raw]> fs).

(** ** convert *)

(** An object of a bucket. *)
Record Object : Type := s3_object {
  contents : bytes;
  content_type : string;
}.

(** The buckets of the storage service, by name, each with its objects by
    key. *)
Abbreviation buckets := (gmap string (gmap string Object)).

(** What the program works on: the service, the local files and the memo
    table of the connections. *)
Record World : Type := world {
  service : buckets;
  local : files;
  connections : Memo;
}.

(** The Python objects that [S3] may be called on, and what it returns. *)
Inductive pyobj : Type :=
  | Class (class_name : string)
  | CSV (path : string)
  | Conn (c : Connection).

(** [[
@memoize
def S3(cls):
    return type('S3(%s)' % cls.__name__, (_S3, cls), {'subtype': cls})
]]
    [S3] has the one parameter [cls]: a call with one positional argument
    binds it to [cls]; a call with more arguments, or with a keyword that is
    not a parameter of [S3], is a TypeError.  An instance of [CSV] has no
    [__name__]. *)
Definition S3 (args : list pyobj) (kwargs : list (string * pyobj))
  : outcome pyobj :=
  match args, kwargs with
  | [cls], [] =>
      match cls with
      | Class n => Return (Class ("S3(" +:+ n +:+ ")"))
      | _ => Raise AttributeError
      end
  | _, _ => Raise TypeError
  end.

(** [os.path.basename]: what follows the last slash. *)
Fixpoint basename (p : string) : string :=
  match p with
  | EmptyString => EmptyString
  | String c p' =>
      if bool_decide ("/"%char ∈ list_ascii_of_string p') then basename p'
      else if bool_decide (c = "/"%char) then p'
      else p
  end.

(** [[
def convert_csv_to_s3(csv, bucket_name=None, aws_access_key_id=None,
                      aws_secret_access_key=None, **kwargs):
    assert bucket_name is not None, 'must provide a bucket name'
    s3 = get_s3_connection(aws_access_key_id=aws_access_key_id,
                           aws_secret_access_key=aws_secret_access_key)
    try:
        bucket = s3.get_bucket(bucket_name)
    except boto.exception.S3ResponseError:
        bucket = s3.create_bucket(bucket_name)
    key = boto.s3.key.Key(bucket, name=os.path.basename(csv.path),
                          content_type='text/csv')
    key.set_contents_from_filename(csv.path)
    return S3(CSV('s3://%s/%s' % (bucket.name, key.key)), s3=s3)
]]
    [get_bucket] raises S3ResponseError for a bucket that does not exist,
    and [create_bucket] then makes an empty one;
    [set_contents_from_filename] raises IOError when there is no such local
    file. *)
Definition convert_csv_to_s3 (s : Settings) (csv_path : string)
    (bucket_name : option string) (key secret : option string) (w : World)
  : outcome pyobj * World :=
  match bucket_name with
  | None => (Raise AssertionError, w)
  | Some bucket =>
      let (s3, m) := get_s3_connection s (call key secret None)
                       (connections w) in
      let objects := default ∅ (service w !! bucket) in
      let w1 := world (<[bucket := objects]> (service w)) (local w) m in
      let key_name := basename csv_path in
      match local w !! csv_path with
      | None => (Raise IOError, w1)
      | Some data =>
          let w2 := world
            (<[bucket := <[key_name := s3_object data "text/csv"]> objects]>
               (service w))
            (local w) m in
          (S3 [CSV ("s3://" +:+ bucket +:+ "/" +:+ key_name)]
              [("s3", Conn s3)],
           w2)
      end
  end.

(** ** What the properties speak of *)

(** The memo table when the module is loaded. *)
Definition no_memo : Memo := memo_state (λ _, None) 0.

(** The memo tables that calls of [get_s3_connection] lead to. *)
Inductive reachable : Memo → Prop :=
  | reachable_loaded : reachable no_memo
  | reachable_call s c m :
      reachable m → reachable (get_s3_connection s c m).2.

(** What [sample_s3_csv] keeps of the bytes [raw] it fetched: what stands
    before the last carriage-return-linefeed, or, when [raw] has none, before
    the last linefeed. *)
Definition truncated (raw sample : bytes) : Prop :=
  match rindex [CR; LF] raw with
  | Some i => sample = take i raw
  | None => ∃ i, rindex [LF] raw = Some i ∧ sample = take i raw
  end.

(** ** Inputs to evaluate the code on *)

(** No credential in the configuration or in the environment. *)
Definition no_settings : Settings := settings None None None None.

(** One local file, no bucket, no connection made. *)
Definition one_file : World :=
  world ∅ {[ "data/tips.csv" := list_ascii_of_string "a,b" ]} no_memo.

(** An object of three lines that end in carriage-return-linefeed. *)
Definition three_lines : bytes :=
  list_ascii_of_string "a,b" ++ [CR; LF] ++ list_ascii_of_string "1,2"
    ++ [CR; LF] ++ list_ascii_of_string "3,4".

(** An object of ten bytes that holds no line break. *)
Definition one_long_line : bytes := list_ascii_of_string "abcdefghij".

End Aws.

(* ===================================================================== *)
(** * into/backends/h5py.py: appending chunked sequences                   *)
(* ===================================================================== *)

Module H5pyChunks.
Import Py H5py.
#[local] Open Scope Z_scope.

(** The body of the loop of [append_h5py_dset_chunks], for the iterator
    [it] whose items yet to come are [pending]: each turn takes the next
    item off the iterator and appends it; an append that raises ends the
    loop and leaves the other items in the iterator. *)
Fixpoint append_loop (it : nat) (pending : list ndarray) (dset : Dataset)
    (h : Chunks.heap ndarray) : outcome Dataset * Chunks.heap ndarray :=
  match pending with
  | [] => (Return dset, h)
  | chunk :: pending' =>
      let h' := <[it := pending']> h in
      match append_h5py dset chunk with
      | Return dset' => append_loop it pending' dset' h'
      | Raise e => (Raise e, h')
      end
  end.

(** [[
@append.register(h5py.Dataset, chunks(np.ndarray))
def append_h5py_dset_chunks(dset, c, **kwargs):
    for chunk in c:
        append_h5py(dset, chunk)
    return dset
]] *)
Definition append_h5py_dset_chunks (dset : Dataset)
    (c : Chunks.Chunks ndarray) (h : Chunks.heap ndarray)
  : outcome Dataset * Chunks.heap ndarray :=
  let (it, h') := Chunks.iter c h in
  append_loop it (default [] (h' !! it)) dset h'.

(** ** What the properties speak of *)

(** The elements [elements] fill the shape [sh]. *)
Definition fills (sh : list Z) (elements : list Z) : Prop :=
  Forall (λ n, 0 ≤ n) sh ∧ length elements = Z.to_nat (product sh).

(** [x] holds [k] rows of the shape [rest]. *)
Definition rows_of (rest : list Z) (k : Z) (x : ndarray) : Prop :=
  0 < k ∧ shape x = k :: rest ∧ length (flat x) = Z.to_nat (k * product rest).

(** The rows of a list of arrays, counted. *)
Definition count_rows (l : list ndarray) : Z :=
  foldr (λ x acc, hd 0 (shape x) + acc) 0 l.

(** [dset] has chunked storage and no bound on its leading extent. *)
Definition appendable (dset : Dataset) : Prop :=
  chunked dset = true ∧ hd None (maxshape dset) = None.

(** ** Datasets to evaluate the code on *)

(** An appendable dataset of no row yet, and one of two rows. *)
Definition no_rows : Dataset :=
  dataset (file "copy.h5" true) [0; 2] [None; Some 2] true [] 0.

Definition two_rows : Dataset :=
  dataset (file "data.h5" true) [2; 2] [None; Some 2] true [1; 2; 3; 4] 0.

End H5pyChunks.

(* ===================================================================== *)
(** * into/backends/h5py.py: the generator of chunks, step by step         *)
(* ===================================================================== *)

(** [H5py] has the items of the generator for a dataset that is not
    written to while it is iterated.  Here the datasets are objects that
    change, and the generator reads the dataset when it is asked for an
    item: the dataset appended to may be the one that is read. *)
Module H5pyStore.
Import Py H5py.
#[local] Open Scope Z_scope.

(** The dataset objects, told apart by a number: what each holds now. *)
Definition datasets : Type := nat → Dataset.

(** [ds] after the dataset [i] has become [d]. *)
Definition set (i : nat) (d : Dataset) (ds : datasets) : datasets :=
  λ j, if decide (j = i) then d else ds j.

(** [[
@convert.register(Iterator, h5py.Dataset, cost=5.0)
def h5py_to_numpy_iterator(t, chunksize=1e7, **kwargs):
    chunksize = int(chunksize)
    for i in range(0, t.shape[0], chunksize):
        yield t[i: i + chunksize]
]]
    The generator object of a call, for a positive [chunksize]: made and
    not run yet; suspended at the [yield], with the indices of the [range]
    that are yet to come; or finished.  Nothing of the dataset [t] is read
    when the object is made: [t.shape[0]] is read when the object is first
    asked for an item, and each window [t[i: i + chunksize]] when it is
    asked for. *)
Inductive generator : Type :=
  | Made (t : nat) (chunksize : positive)
  | Suspended (t : nat) (chunksize : positive) (indices : list Z)
  | Finished.

Definition h5py_to_numpy_iterator (t : nat) (chunksize : positive)
  : generator := Made t chunksize.

(** [next(g)]: the next item, or nothing (StopIteration).  A dataset of no
    dimension has no [shape[0]]. *)
Definition next (g : generator) (ds : datasets)
  : outcome (option ndarray) * generator :=
  let step t chunksize indices :=
    match indices with
    | [] => (Return None, Finished)
    | i :: indices' =>
        (Return (Some (getitem_rows (ds t) i (i + Z.pos chunksize))),
         Suspended t chunksize indices')
    end in
  match g with
  | Made t chunksize =>
      match dshape (ds t) with
      | [] => (Raise IndexError, Finished)
      | n :: _ => step t chunksize (range n chunksize)
      end
  | Suspended t chunksize indices => step t chunksize indices
  | Finished => (Return None, Finished)
  end.

(** [[
@convert.register(chunks(np.ndarray), h5py.Dataset, cost=3.0)
def h5py_to_numpy_chunks(t, chunksize=2 ** 20, **kwargs):
    return chunks(np.ndarray)(h5py_to_numpy_iterator(t, chunksize=chunksize, **kwargs))
]]
    The chunked sequence wraps the generator object, and iterating it is
    iterating that object. *)
Definition h5py_to_numpy_chunks (t : nat) (chunksize : positive)
  : generator := h5py_to_numpy_iterator t chunksize.

(** [[
    for chunk in c:
        append_h5py(dset, chunk)
]]
    once the generator is suspended: each turn asks the generator for its
    next window, read from the dataset [t] as it is then, and appends it to
    the dataset [dset]. *)
Fixpoint append_windows (dset t : nat) (chunksize : positive)
    (indices : list Z) (ds : datasets)
  : outcome unit * generator * datasets :=
  match indices with
  | [] => (Return (), Finished, ds)
  | i :: indices' =>
      let chunk := getitem_rows (ds t) i (i + Z.pos chunksize) in
      match append_h5py (ds dset) chunk with
      | Return dset' =>
          append_windows dset t chunksize indices' (set dset dset' ds)
      | Raise e => (Raise e, Suspended t chunksize indices', ds)
      end
  end.

(** [[
@append.register(h5py.Dataset, chunks(np.ndarray))
def append_h5py_dset_chunks(dset, c, **kwargs):
    for chunk in c:
        append_h5py(dset, chunk)
    return dset
]]
    for the chunked sequence of the generator [g]: what the call returns or
    raises, the generator and the datasets as it leaves them. *)
Definition append_h5py_dset_chunks (dset : nat) (g : generator)
    (ds : datasets) : outcome unit * generator * datasets :=
  match g with
  | Made t chunksize =>
      match dshape (ds t) with
      | [] => (Raise IndexError, Finished, ds)
      | n :: _ => append_windows dset t chunksize (range n chunksize) ds
      end
  | Suspended t chunksize indices =>
      append_windows dset t chunksize indices ds
  | Finished => (Return (), Finished, ds)
  end.

(** ** Datasets to evaluate the code on *)

(** Two dataset objects that hold the same three rows, and no other. *)
Definition two_datasets : datasets := λ _, three_rows.

End H5pyStore.

(* ===================================================================== *)
(** * into/backends/h5py.py: creating datasets from a datashape            *)
(* ===================================================================== *)

Module H5pyCreate.
Import Py H5py.
#[local] Open Scope Z_scope.

(** ** Datashapes *)

(** A dimension of a datashape: [var], or a fixed extent. *)
Inductive dim : Type := var | Fixed (n : Z).

#[global] Instance dim_eq_dec : EqDecision dim.
Proof. solve_decision. Defined.

(** A datashape: dimensions and a measure, which is a scalar type or a
    record of named datashapes. *)
Inductive DataShape : Type :=
  | DShape (dims : list dim) (measure : Measure)
with Measure : Type :=
  | CType (name : string)
  | Record (fields : list (string * DataShape)).

Definition dims_of (ds : DataShape) : list dim :=
  match ds with DShape dims _ => dims end.

(** [isrecord(ds)]: a record and no dimension. *)
Definition isrecord (ds : DataShape) : bool :=
  match ds with
  | DShape [] (Record _) => true
  | _ => false
  end.

(** [to_numpy(ds)[0]] for dimensions without [var]: the fixed extents. *)
Definition to_numpy_shape (dims : list dim) : list Z :=
  dims ≫= λ d, match d with Fixed n => [n] | var => [] end.

(** ** The content of an h5py file *)

(** What a path of an h5py file holds: a group or a dataset.  A path is the
    list of its names; h5py reads [/a/b] and [//a/b] alike. *)
Inductive Node : Type := Group | DSet (d : Dataset).

Abbreviation path := (list string).
Abbreviation nodes := (gmap path Node).

(** The values of the keyword arguments. *)
Inductive kwarg : Type :=
  | KTrue
  | KShape (m : list (option Z))
  | KInt (z : Z)
  | KStr (s : string).

#[global] Instance kwarg_eq_dec : EqDecision kwarg.
Proof. solve_decision. Defined.

Abbreviation kwargs := (gmap string kwarg).

(** The exceptions of [Py] and [KeyError]. *)
Inductive error : Type := Std (e : exn) | KeyError.

Inductive result (A : Type) : Type :=
  | Done (a : A)
  | Fail (e : error).
Arguments Done {A} a.
Arguments Fail {A} e.

(** [[
h5py_attributes = ['chunks', 'compression', 'compression_opts', 'dtype',
                   'fillvalue', 'fletcher32', 'maxshape', 'shape']
]] *)
Definition h5py_attributes : list string :=
  ["chunks"; "compression"; "compression_opts"; "dtype"; "fillvalue";
   "fletcher32"; "maxshape"; "shape"]%string.

(** [keyfilter(h5py_attributes.__contains__, kwargs)] *)
Definition keyfilter_attributes (kw : kwargs) : kwargs :=
  filter (λ kv, kv.1 ∈ h5py_attributes) kw.

(** The names of a path of h5py, as HDF5 reads it: the parts between the
    [/], but for the empty ones and for [.], which stands for the group
    itself. *)
Fixpoint split_slash (s : string) : list string :=
  match s with
  | EmptyString => [EmptyString]
  | String c s' =>
      if Ascii.eqb c "/" then EmptyString :: split_slash s'
      else match split_slash s' with
           | h :: t => String c h :: t
           | [] => [String c EmptyString]
           end
  end.

Definition components (s : string) : path :=
  filter (λ n, n ≠ EmptyString ∧ n ≠ "."%string) (split_slash s).

(** ['/'.join([group.name, name])], and [name] as the group [group] reads
    it: the path of the group followed by the names of [name]. *)
Definition child (group : path) (name : string) : path :=
  group ++ components name.

Section h5py.

(** [Group.create_dataset(name, shape, dtype, **kwds)] of h5py, for a name
    that is free: the new dataset, or the exception h5py raises for these
    options. *)
Variable create_dataset : File → list Z → kwargs → outcome Dataset.

(** [file.require_dataset(datapath, shape=shape, dtype=dtype, **kwargs2)]:
    Python refuses the call when [kwargs2] names [shape] or [dtype] once
    more (TypeError); h5py creates the dataset when the path is free,
    returns the dataset the path holds when it has the shape asked for, and
    raises TypeError when the path holds a dataset of another shape or a
    group.  The elements are of one type throughout. *)
Definition require_dataset (f : File) (datapath : path) (shape : list Z)
    (kwargs2 : kwargs) (ns : nodes) : outcome Dataset * nodes :=
  if bool_decide (is_Some (kwargs2 !! "shape"%string)
                  ∨ is_Some (kwargs2 !! "dtype"%string))
  then (Raise TypeError, ns)
  else
    match ns !! datapath with
    | None =>
        match create_dataset f shape kwargs2 with
        | Return d => (Return d, <[datapath := DSet d]> ns)
        | Raise e => (Raise e, ns)
        end
    | Some Group => (Raise TypeError, ns)
    | Some (DSet d) =>
        if bool_decide (dshape d = shape) then (Return d, ns)
        else (Raise TypeError, ns)
    end.

(** [[
def dataset_from_dshape(file, datapath, ds, **kwargs):
    dtype = varlen_dtype(to_numpy_dtype(ds))
    if datashape.var not in list(ds):
        shape = to_numpy(ds)[0]
    elif datashape.var not in list(ds)[1:]:
        shape = (0,) + to_numpy(ds.subshape[0])[0]
    else:
        raise ValueError("Don't know how to handle varlen nd shapes")

    if shape:
        kwargs['chunks'] = kwargs.get('chunks', True)
        kwargs['maxshape'] = kwargs.get('maxshape', (None,) + shape[1:])

    kwargs2 = keyfilter(h5py_attributes.__contains__, kwargs)
    try:
        return file.require_dataset(datapath, shape=shape, dtype=dtype, **kwargs2)
    except TypeError as e:
        # we have a shape mismatch
        # all dims must match except ndim=0 (the appending dim)
        existing_shape = file[datapath].shape
        if not (shape[1:] == existing_shape[1:]):
            raise
]]
    The result is the dataset returned, or [None] where the function ends
    without a [return].  The measure of [ds] is one numpy has a dtype
    for. *)
Definition dataset_from_dshape (f : File) (datapath : path) (ds : DataShape)
    (kw : kwargs) (ns : nodes) : result (option Dataset) * nodes :=
  let dims := dims_of ds in
  let shape :=
    if bool_decide (var ∉ dims) then Return (to_numpy_shape dims)
    else if bool_decide (var ∉ tail dims)
    then Return (0 :: to_numpy_shape (tail dims))
    else Raise ValueError in
  match shape with
  | Raise e => (Fail (Std e), ns)
  | Return shape =>
      let kw :=
        match shape with
        | [] => kw
        | _ :: _ =>
            let kw := <["chunks"%string :=
                          default KTrue (kw !! "chunks"%string)]> kw in
            <["maxshape"%string :=
                default (KShape (None :: (Some <$> tail shape)))
                        (kw !! "maxshape"%string)]> kw
        end in
      let kwargs2 := keyfilter_attributes kw in
      match require_dataset f datapath shape kwargs2 ns with
      | (Return d, ns') => (Done (Some d), ns')
      | (Raise TypeError, ns') =>
          match ns' !! datapath with
          | None => (Fail KeyError, ns')
          | Some Group => (Fail (Std AttributeError), ns')
          | Some (DSet d) =>
              if bool_decide (tail shape = tail (dshape d))
              then (Done None, ns')
              else (Fail (Std TypeError), ns')
          end
      | (Raise e, ns') => (Fail (Std e), ns')
      end
  end.

(** [group.require_group(name)]: the group is made when the path is free; a
    dataset in its place is refused. *)
Definition require_group (p : path) (ns : nodes) : outcome unit * nodes :=
  match ns !! p with
  | None => (Return (), <[p := Group]> ns)
  | Some Group => (Return (), ns)
  | Some (DSet _) => (Raise TypeError, ns)
  end.

(** [[
def create_from_datashape(group, ds, name=None, **kwargs):

    ds = dshape(ds)
    assert isrecord(ds)
    if isinstance(ds, DataShape) and len(ds) == 1:
        ds = ds[0]
    for name, sub_ds in ds.dict.items():
        if isrecord(sub_ds):
            g = group.require_group(name)
            create_from_datashape(g, sub_ds, **kwargs)
        else:
            dataset_from_dshape(file=group.file,
                                datapath='/'.join([group.name, name]),
                                ds=sub_ds, **kwargs)
]]
    for the call [create_from_datashape(group, ds, **kw)], where [group] is
    the path of the group.  Python refuses the call when [kw] names [group]
    or [ds], which are passed already, and binds a [name] of [kw] to the
    parameter [name], which the body does not read; it refuses the call of
    [dataset_from_dshape] when the keyword arguments name [file] or
    [datapath].  The fields are taken in the order of the record.  The
    groups that h5py makes on the way to a name with [/] in it are not kept
    track of. *)
Fixpoint create_from_datashape (f : File) (group : path) (ds : DataShape)
    (kw : kwargs) (ns : nodes) : result unit * nodes :=
  if bool_decide (is_Some (kw !! "group"%string)
                  ∨ is_Some (kw !! "ds"%string))
  then (Fail (Std TypeError), ns)
  else
    let kw := delete "name"%string kw in
    match ds with
    | DShape [] (Record fields) =>
        (fix each (l : list (string * DataShape)) (ns : nodes)
           : result unit * nodes :=
           match l with
           | [] => (Done (), ns)
           | (name, sub_ds) :: l' =>
               if isrecord sub_ds then
                 match require_group (child group name) ns with
                 | (Return _, ns1) =>
                     match create_from_datashape f (child group name) sub_ds
                             kw ns1 with
                     | (Done _, ns2) => each l' ns2
                     | (Fail e, ns2) => (Fail e, ns2)
                     end
                 | (Raise e, ns1) => (Fail (Std e), ns1)
                 end
               else if bool_decide (is_Some (kw !! "file"%string)
                                    ∨ is_Some (kw !! "datapath"%string))
               then (Fail (Std TypeError), ns)
               else
                 match dataset_from_dshape f (child group name) sub_ds kw ns
                 with
                 | (Done _, ns1) => each l' ns1
                 | (Fail e, ns1) => (Fail e, ns1)
                 end
           end) fields ns
    | _ => (Fail (Std AssertionError), ns)
    end.

(** [[
@create.register(h5py.File, object)
def create(f, pathname, dshape=None, **kwargs):
    try:
        f.close()
    except:
        pass

    f = h5py.File(pathname)
    if dshape is not None:
        create_from_datashape(f, dshape, **kwargs)
    return f
]]
    for the call [create(h5py.File, pathname=pathname, dshape=dshape,
    **kw)] of [resource_h5py]: Python refuses it when [kw] names [f],
    [pathname] or [dshape], which are passed already.  [ns] is what the
    file at [pathname] holds, nothing when it is new; once the file is
    opened its root group is there, at the path of no name.  The [close]
    has no effect the model keeps. *)
Definition create (pathname : string) (dshape : option DataShape)
    (kw : kwargs) (ns : nodes) : result File * nodes :=
  if bool_decide (is_Some (kw !! "f"%string)
                  ∨ is_Some (kw !! "pathname"%string)
                  ∨ is_Some (kw !! "dshape"%string))
  then (Fail (Std TypeError), ns)
  else
    let f := file pathname true in
    let ns := <[[] := Group]> ns in
    match dshape with
    | None => (Done f, ns)
    | Some ds =>
        match create_from_datashape f [] ds kw ns with
        | (Done _, ns') => (Done f, ns')
        | (Fail e, ns') => (Fail e, ns')
        end
    end.

End h5py.

(** ** The datapath of a resource *)

(** [datapath.rsplit('/', 1)]: the parts before and after the last [/];
    nothing when there is no [/], where Python returns a list of one
    string. *)
Fixpoint rsplit (s : string) : option (string * string) :=
  match s with
  | EmptyString => None
  | String c s' =>
      match rsplit s' with
      | Some (a, b) => Some (String c a, b)
      | None => if Ascii.eqb c "/" then Some (EmptyString, s') else None
      end
  end.

(** [[
            while ds and datapath:
                datapath, name = datapath.rsplit('/', 1)
                ds = Record([[name, ds]])
]]
    A datashape is never false.  Unpacking a list of one string raises
    ValueError.  Each turn shortens [datapath], so as many turns as it has
    characters are enough. *)
Fixpoint wrap_loop (turns : nat) (datapath : string) (ds : DataShape)
  : outcome DataShape :=
  match turns, datapath with
  | _, EmptyString => Return ds
  | O, _ => Return ds
  | S turns', _ =>
      match rsplit datapath with
      | None => Raise ValueError
      | Some (datapath', name) =>
          wrap_loop turns' datapath' (DShape [] (Record [(name, ds)]))
      end
  end.

(** [[
@resource.register('^(h5py://)?.+\.(h5|hdf5)', priority=10.0)
def resource_h5py(uri, datapath=None, dshape=None, **kwargs):

    uri = resource_matches(uri, 'h5py')

    olddatapath = datapath

    if dshape is not None:
        ds = datashape.dshape(dshape)
        if datapath is not None:
            while ds and datapath:
                datapath, name = datapath.rsplit('/', 1)
                ds = Record([[name, ds]])
            ds = datashape.dshape(ds)
        f = create(h5py.File, pathname=uri, dshape=ds, **kwargs)
    else:
        f = h5py.File(uri)
        ds = discover(f)
]]
    up to the file that is opened; [uri] is the path of the file and [ns]
    what the file holds, nothing when it is new. *)
Definition resource_h5py
    (create_dataset : File → list Z → kwargs → outcome Dataset)
    (uri : string) (datapath : option string) (dshape : option DataShape)
    (kw : kwargs) (ns : nodes) : result File * nodes :=
  match dshape with
  | Some ds =>
      let wrapped :=
        match datapath with
        | Some datapath => wrap_loop (String.length datapath) datapath ds
        | None => Return ds
        end in
      match wrapped with
      | Return ds' => create create_dataset uri (Some ds') kw ns
      | Raise e => (Fail (Std e), ns)
      end
  | None => (Done (file uri true), <[[] := Group]> ns)
  end.

(** ** What the properties speak of *)

(** The datapath [/n1/n2/.../nk] of the names [n1 ... nk]. *)
Definition datapath_of (names : list string) : string :=
  foldr (λ n s, "/" +:+ n +:+ s)%string EmptyString names.

(** The datashape [{n1: {n2: ... {nk: ds}}}]. *)
Definition nested (names : list string) (ds : DataShape) : DataShape :=
  foldr (λ n d, DShape [] (Record [(n, d)])) ds names.

(** A name without [/]. *)
Definition plain (name : string) : Prop :=
  ∀ a b, name ≠ (a +:+ "/" +:+ b)%string.

(** A name that names a member of a group: without [/], not empty and not
    [.]. *)
Definition member_name (name : string) : Prop :=
  plain name ∧ name ≠ EmptyString ∧ name ≠ "."%string.

(** The names that the calls on the way from [resource_h5py] to
    [dataset_from_dshape] pass themselves. *)
Definition passed_already : list string :=
  ["f"; "pathname"; "dshape"; "group"; "ds"; "file"; "datapath"]%string.

(** The groups [/n1], [/n1/n2], ... above the last of the names, under the
    group [group]. *)
Fixpoint groups_above (group : path) (names : list string) : list path :=
  match names with
  | [] | [_] => []
  | n :: names' => (group ++ [n]) :: groups_above (group ++ [n]) names'
  end.


(** The file [ns] with a group at each of the paths [ps]. *)
Definition with_groups (ps : list path) (ns : nodes) : nodes :=
  foldl (λ ns p, <[p := Group]> ns) ns ps.

(** The dataset h5py makes for the shape [0 :: rest] when asked for chunks
    and for no bound on the leading extent. *)
Definition growable (f : File) (rest : list Z) : Dataset :=
  dataset f (0 :: rest) (None :: (Some <$> rest)) true [] 0.

(** What [dataset_from_dshape] asks of h5py for a datashape with [var] in
    front and no named option of its caller. *)
Definition default_options (rest : list Z) : kwargs :=
  {[ "chunks"%string := KTrue;
     "maxshape"%string := KShape (None :: (Some <$> rest)) ]}.

(** An h5py to evaluate the code with: it makes the growable dataset when
    asked with these options, and nothing else. *)
Definition create_growable (f : File) (shape : list Z) (kw : kwargs)
  : outcome Dataset :=
  if bool_decide (kw = default_options (tail shape) ∧ hd 1 shape = 0)
  then Return (growable f (tail shape))
  else Raise RuntimeError.

End H5pyCreate.

(* ===================================================================== *)
(** * into/backends/hdfstore.py: appending to a table not yet created      *)
(* ===================================================================== *)

Module HDFStoreEmpty.
Import Py HDFStore.

(** What the group of a storer holds: no table yet, the state for which
    [HDFStore] returns an [EmptyAppendableFrameTable], or a table, made
    with every column a data column or with none. *)
Inductive Node : Type :=
  | NoTable (name : string)
  | WithTable (t : Table) (data_columns : bool).

(** [data.empty]: a frame without columns or without rows. *)
Definition empty (data : DataFrame) : bool :=
  bool_decide (columns data = [] ∨ rows data = []).

(** The table pandas makes of the first frame appended under [name];
    PyTables makes a table with [autoindex] on. *)
Definition new_table (name : string) (data : DataFrame) : Table :=
  table name (columns data) (rows data) true false 0.

(** [[
@append.register(EmptyAppendableFrameTable, pd.DataFrame)
def append_frame_to_hdfstore(t, data, **kwargs):
    name = t.group._v_name
    t.parent.append(name, data, format='table', data_columns=True)
    return t.parent.get_storer(name)
]]
    for a group that holds no table yet.  The function is reached through
    [append] only: the name [append_frame_to_hdfstore] is bound anew further
    down in the module.  pandas stores nothing for a frame that is empty. *)
Definition append_frame_to_empty (name : string) (data : DataFrame) : Node :=
  if empty data then NoTable name
  else WithTable (new_table name data) true.

(** [[
@append.register(hdf.AppendableFrameTable, pd.DataFrame)
def append_frame_to_hdfstore(t, data, **kwargs):
    name = t.group._v_name
    t.parent.append(name, data)
    return t.parent.get_storer(name)
]]
    as the functions of the module call it by its name, whatever the group
    holds. *)
Definition append_frame_by_name (data : DataFrame) (n : Node)
  : outcome unit * Node :=
  match n with
  | NoTable name =>
      (Return (),
       if empty data then NoTable name
       else WithTable (new_table name data) false)
  | WithTable t dc =>
      let (r, t') := append_frame_to_hdfstore data t in (r, WithTable t' dc)
  end.

(** [[
@append.register(hdf.AppendableFrameTable, chunks(pd.DataFrame))
def append_chunks_to_hdfstore(t, data, **kwargs):
    with ensure_indexing(t):
        for chunk in data:
            t = append_frame_to_hdfstore(t, chunk, **kwargs)
    return t
]]
    called by its name, whatever the group holds: without a table,
    [t.table] is [None] and [ensure_indexing] fails on its first line. *)
Definition append_chunks_by_name (data : list DataFrame) (n : Node)
  : outcome unit * Node :=
  match n with
  | NoTable name => (Raise AttributeError, n)
  | WithTable t dc =>
      let (r, t') := append_chunks_to_hdfstore data t in (r, WithTable t' dc)
  end.

(** [[
@append.register(EmptyAppendableFrameTable, chunks(pd.DataFrame))
def append_chunks_to_hdfstore(t, data, **kwargs):
    data = list(data)
    d, data = data[0], data[1:]

    # empty table
    t = append_frame_to_hdfstore(t, d, **kwargs)

    # the rest
    return append_chunks_to_hdfstore(t, chunks(pd.DataFrame)(data), **kwargs)
]]
    for a group that holds no table yet; [data] stands for the frames that
    iterating the chunks yields.  Both names stand, when the function runs,
    for the functions defined last. *)
Definition append_chunks_to_empty (name : string) (data : list DataFrame)
  : outcome unit * Node :=
  match data with
  | [] => (Raise IndexError, NoTable name)
  | d :: data' =>
      match append_frame_by_name d (NoTable name) with
      | (Return _, n) => append_chunks_by_name data' n
      | (Raise e, n) => (Raise e, n)
      end
  end.

End HDFStoreEmpty.

(* ===================================================================== *)
(** * dask/tests/test_core.py: the helper of the tests                     *)
(* ===================================================================== *)

Module TestCore.

Section contains.
Context {K : Type} `{Countable K} {V : Type} `{EqDecision V}.

(** A Python dictionary whose values are values of [V] or [None]; [None]
    is the [None] of [option]. *)
#[local] Abbreviation dict := (gmap K (option V)).

(** [a.get(k)]: the value under [k], or [None] for a key that [a] does not
    have. *)
Definition dict_get (a : dict) (k : K) : option V := default None (a !! k).

(** [[
def contains(a, b):
    return all(a.get(k) == v for k, v in b.items())
]] *)
Definition contains (a b : dict) : bool :=
  forallb (λ kv, bool_decide (dict_get a kv.1 = kv.2)) (map_to_list b).

End contains.
End TestCore.

(* ===================================================================== *)
(** * into/backends/aws.py: the memoized connection, call by call          *)
(* ===================================================================== *)

(** [Aws] tells the calls of [get_s3_connection] apart by the values they
    pass and has the connection that boto makes when it accepts the call.
    Here a call is what is written, by position and by keyword, as the memo
    table of toolz keys it, and boto may refuse the call. *)
Module AwsConnection.
Import Py.

(** ** Calls *)

(** The values passed for the parameters of [get_s3_connection]. *)
Inductive pyarg : Type := ANone | AStr (s : string) | ABool (b : bool).

#[global] Instance pyarg_eq_dec : EqDecision pyarg.
Proof. solve_decision. Defined.

(** A call as it is written: the arguments passed by position and those
    passed by keyword. *)
Record Call : Type := call {
  positional : list pyarg;
  keywords : gmap string pyarg;
}.

#[global] Instance Call_eq_dec : EqDecision Call.
Proof. solve_decision. Defined.

(** [def get_s3_connection(aws_access_key_id, aws_secret_access_key,
    anon=False)] *)
Definition parameters : list string :=
  ["aws_access_key_id"; "aws_secret_access_key"; "anon"]%string.

(** What the call passes for the parameter number [i], named [name]. *)
Definition passed (c : Call) (i : nat) (name : string) : option pyarg :=
  match positional c !! i with
  | Some v => Some v
  | None => keywords c !! name
  end.

(** Python binds the arguments to the parameters: a call with more than
    three positional arguments, with a keyword that is no parameter or that
    names a parameter passed by position already, or without one of the two
    credentials, is a TypeError; [anon] left out is [False]. *)
Definition bind_arguments (c : Call) : outcome (pyarg * pyarg * pyarg) :=
  if bool_decide (length (positional c) ≤ 3 ∧
                  dom (keywords c)
                  ⊆ list_to_set (drop (length (positional c)) parameters))
  then
    match passed c 0 "aws_access_key_id",
          passed c 1 "aws_secret_access_key" with
    | Some key, Some secret =>
        Return (key, secret, default (ABool false) (passed c 2 "anon"))
    | _, _ => Raise TypeError
    end
  else Raise TypeError.

(** ** Connections *)

(** A connection object, as [boto.connect_s3] makes it: [conn_id] tells the
    objects apart. *)
Record Connection : Type := connection {
  conn_id : nat;
  conn_key : pyarg;
  conn_secret : pyarg;
  conn_anon : bool;
}.

(** The exceptions of [Py] and boto's [NoAuthHandlerFound]. *)
Inductive error : Type := Std (e : exn) | NoAuthHandlerFound.

Inductive result (A : Type) : Type :=
  | Done (a : A)
  | Fail (e : error).
Arguments Done {A} a.
Arguments Fail {A} e.

(** [boto.connect_s3(aws_access_key_id, aws_secret_access_key, anon=anon)]:
    an anonymous connection needs no credential; any other needs both, and
    boto, which looks for them where the body of [get_s3_connection] does,
    raises NoAuthHandlerFound when one is missing. *)
Definition connect_s3 (key secret : pyarg) (anon : bool) (id : nat)
  : result Connection :=
  if anon || (bool_decide (key ≠ ANone) && bool_decide (secret ≠ ANone))
  then Done (connection id key secret anon)
  else Fail NoAuthHandlerFound.

(** [if a is None: a = b], for a [b] read from the configuration or the
    environment. *)
Definition if_none (a : pyarg) (b : option string) : pyarg :=
  match a with
  | ANone => match b with Some s => AStr s | None => ANone end
  | _ => a
  end.

(** [not anon] is [negb (truth anon)]. *)
Definition truth (v : pyarg) : bool :=
  match v with
  | ANone => false
  | AStr s => negb (bool_decide (s = EmptyString))
  | ABool b => b
  end.

(** [[
def get_s3_connection(aws_access_key_id, aws_secret_access_key, anon=False):
    cfg = boto.Config()
    if aws_access_key_id is None:
        aws_access_key_id = cfg.get('Credentials', 'aws_access_key_id')
    if aws_access_key_id is None:
        aws_access_key_id = os.environ.get('AWS_ACCESS_KEY_ID')
    if aws_secret_access_key is None:
        aws_secret_access_key = cfg.get('Credentials', 'aws_secret_access_key')
    if aws_secret_access_key is None:
        aws_secret_access_key = os.environ.get('AWS_SECRET_ACCESS_KEY')
    anon = (not anon and
            aws_access_key_id is None and
            aws_secret_access_key is None)
    return boto.connect_s3(aws_access_key_id, aws_secret_access_key,
                           anon=anon)
]]
    The body, for the values bound to the parameters; the connection object
    it makes is number [id]. *)
Definition body (s : Aws.Settings) (key secret anon : pyarg) (id : nat)
  : result Connection :=
  let key := if_none (if_none key (Aws.cfg_aws_access_key_id s))
                     (Aws.env_AWS_ACCESS_KEY_ID s) in
  let secret := if_none (if_none secret (Aws.cfg_aws_secret_access_key s))
                        (Aws.env_AWS_SECRET_ACCESS_KEY s) in
  let anon' := negb (truth anon)
               && bool_decide (key = ANone) && bool_decide (secret = ANone) in
  connect_s3 key secret anon' id.

(** The memo table of [get_s3_connection] and the number of connections
    made so far. *)
Record Memo : Type := memo_state {
  memo : Call → option Connection;
  made : nat;
}.

(** [@memoize], of toolz: the key of a call is its positional arguments
    together with its keyword arguments.  A call whose key is in the memo
    table returns the object stored there; any other call runs the function
    and stores what it returns; a call that raises stores nothing. *)
Definition get_s3_connection (s : Aws.Settings) (c : Call) (m : Memo)
  : result Connection * Memo :=
  match memo m c with
  | Some conn => (Done conn, m)
  | None =>
      match bind_arguments c with
      | Raise e => (Fail (Std e), m)
      | Return (key, secret, anon) =>
          match body s key secret anon (made m) with
          | Done conn =>
              (Done conn,
               memo_state
                 (λ c', if decide (c' = c) then Some conn else memo m c')
                 (S (made m)))
          | Fail e => (Fail e, m)
          end
      end
  end.

(** ** What the properties speak of *)


(** The memo table when the module is loaded. *)
Definition no_memo : Memo := memo_state (λ _, None) 0.

(** The memo tables that calls of [get_s3_connection] lead to. *)
Inductive reachable : Memo → Prop :=
  | reachable_loaded : reachable no_memo
  | reachable_call s c m :
      reachable m → reachable (get_s3_connection s c m).2.


(** ** Calls to evaluate the code on *)


End AwsConnection.

(* ===================================================================== *)
(* ===================================================================== *)
(** * Part II: properties                                                  *)
(* ===================================================================== *)
(* ===================================================================== *)

(* ===================================================================== *)
(** * Properties of the task-graph core                                    *)
(* ===================================================================== *)

Module DaskFacts.
Import Dask.

(** ** The equations of [get] *)

Lemma get_int n g z : get n g (TInt z) = Value (VInt z).
Proof. by destruct n. Qed.

Lemma get_str n g s :
  get n g (TStr s) =
  match g !! s with
  | None => Value (VStr s)
  | Some t' => match n with O => CycleOrTooDeep | S d => get d g t' end
  end.
Proof. by destruct n. Qed.

Lemma get_each_unfold n g ts :
  (fix each (l : list Task) : result (list value) :=
     match l with
     | [] => Value []
     | t' :: l' => cons_result (get n g t') (each l')
     end) ts = get_each n g ts.
Proof. induction ts as [|t ts IH]; simpl; [done|]. by rewrite IH. Qed.

Lemma get_list n g ts : get n g (TList ts) = as_list (get_each n g ts).
Proof. rewrite <- get_each_unfold. by destruct n. Qed.

Lemma get_app n g f args : get n g (TApp f args) = call f (get_each n g args).
Proof. rewrite <- get_each_unfold. by destruct n. Qed.

#[local] Arguments get : simpl never.

(** ** Results are stable once the depth suffices *)

Lemma settled_as_list rs : settled (as_list rs) → settled rs.
Proof. by destruct rs. Qed.

Lemma settled_call f rs r :
  settled r → call f rs = r → settled rs.
Proof. intros Hr <-. by destruct rs. Qed.

(** A simulation of the element-wise resolution: when each task of [ts]
    keeps its settled result on passing from [(n, g)] under the rewriting
    [σ] to [(m, g')] under [τ], so does the sequence. *)
Lemma get_each_sim n m g g' (σ τ : Task → Task) ts :
  Forall (λ t, ∀ r, settled r → get n g (σ t) = r → get m g' (τ t) = r) ts →
  ∀ rs, settled rs →
    get_each n g (map σ ts) = rs → get_each m g' (map τ ts) = rs.
Proof.
  induction 1 as [|t ts Ht _ IH]; intros rs Hrs; simpl; [done|].
  destruct (get n g (σ t)) as [v|e|] eqn:Et; simpl.
  - rewrite (Ht (Value v) I eq_refl). simpl.
    destruct (get_each n g (map σ ts)) as [vs|e|] eqn:Ets; intros <-.
    + by rewrite (IH (Value vs) I eq_refl).
    + by rewrite (IH (Failed e) I eq_refl).
    + done.
  - rewrite (Ht (Failed e) I eq_refl). by intros <-.
  - by intros <-.
Qed.

Lemma get_each_sim_id n m g g' ts :
  Forall (λ t, ∀ r, settled r → get n g t = r → get m g' t = r) ts →
  ∀ rs, settled rs → get_each n g ts = rs → get_each m g' ts = rs.
Proof.
  intros H rs. rewrite <- (map_id ts) at 1 2.
  by apply (get_each_sim n m g g' id id).
Qed.

Lemma get_each_sim_l n m g g' (σ : Task → Task) ts :
  Forall (λ t, ∀ r, settled r → get n g (σ t) = r → get m g' t = r) ts →
  ∀ rs, settled rs → get_each n g (map σ ts) = rs → get_each m g' ts = rs.
Proof.
  intros H rs. rewrite <- (map_id ts) at 2.
  by apply (get_each_sim n m g g' σ id).
Qed.

Lemma get_each_sim_r n m g g' (τ : Task → Task) ts :
  Forall (λ t, ∀ r, settled r → get n g t = r → get m g' (τ t) = r) ts →
  ∀ rs, settled rs → get_each n g ts = rs → get_each m g' (map τ ts) = rs.
Proof.
  intros H rs. rewrite <- (map_id ts) at 1.
  by apply (get_each_sim n m g g' id τ).
Qed.

(** Both kinds of compound task, at once. *)
Lemma get_compound_sim n m g g' (σ τ : Task → Task) ts :
  Forall (λ t, ∀ r, settled r → get n g (σ t) = r → get m g' (τ t) = r) ts →
  (∀ r, settled r →
     get n g (TList (map σ ts)) = r → get m g' (TList (map τ ts)) = r) ∧
  (∀ f r, settled r →
     get n g (TApp f (map σ ts)) = r → get m g' (TApp f (map τ ts)) = r).
Proof.
  intros H. split.
  - intros r Hr. rewrite !get_list. intros <-. apply settled_as_list in Hr.
    f_equal. by eapply get_each_sim.
  - intros f r Hr. rewrite !get_app. intros Hc.
    pose proof (settled_call _ _ _ Hr Hc) as Hrs. rewrite <- Hc. f_equal.
    by eapply get_each_sim.
Qed.

Lemma get_mono_tasks n g :
  (∀ s t' r, g !! s = Some t' → settled r →
     match n with O => CycleOrTooDeep | S d => get d g t' end = r →
     get n g t' = r) →
  ∀ t r, settled r → get n g t = r → get (S n) g t = r.
Proof.
  intros Hkey t.
  induction t as [z|s|ts IH|f args IH] using Task_nested_ind; intros r Hr.
  - by rewrite !get_int.
  - rewrite (get_str (S n)), (get_str n).
    destruct (g !! s) as [t'|] eqn:Es; [|done]. by apply (Hkey s).
  - revert Hr. rewrite <- (map_id ts). by apply get_compound_sim.
  - revert Hr. rewrite <- (map_id args). by apply get_compound_sim.
Qed.

Lemma get_mono n g t r :
  settled r → get n g t = r → get (S n) g t = r.
Proof.
  revert t r. induction n as [|d IHd]; apply get_mono_tasks.
  - intros s t' r _ Hr <-. done.
  - intros s t' r _. apply IHd.
Qed.

Lemma get_mono_le n m g t r :
  n ≤ m → settled r → get n g t = r → get m g t = r.
Proof.
  induction 1 as [|m _ IH]; [done|]. intros Hr Hn. by apply get_mono, IH.
Qed.


(** ** Substitution *)

Lemma elem_of_strings_of_list c ts :
  c ∈ concat (map strings_of ts) ↔ ∃ t, t ∈ ts ∧ c ∈ strings_of t.
Proof.
  rewrite list_elem_of_In, in_concat. split.
  - intros (l & Hl & Hin). apply in_map_iff in Hl as (t & <- & Ht).
    exists t. by rewrite !list_elem_of_In.
  - intros (t & Ht & Hin). exists (strings_of t).
    rewrite in_map_iff, <- list_elem_of_In. split; [|done].
    exists t. by rewrite <- list_elem_of_In.
Qed.

Lemma Forall_fresh (P : Task → Prop) c ts :
  Forall (λ t, c ∉ strings_of t → P t) ts →
  c ∉ concat (map strings_of ts) → Forall P ts.
Proof.
  rewrite !Forall_forall. intros IH Hfresh t Ht. apply IH; [done|].
  intros Hin. apply Hfresh, elem_of_strings_of_list. eauto.
Qed.

Lemma subs_fresh t c v : c ∉ strings_of t → subs t c v = t.
Proof.
  induction t as [z|s|ts IH|f args IH] using Task_nested_ind; simpl; intros Hc.
  - done.
  - case_decide; [|done]. subst. set_solver.
  - f_equal. rewrite <- (map_id ts) at 2. apply map_ext_Forall.
    by eapply Forall_fresh.
  - f_equal. rewrite <- (map_id args) at 2. apply map_ext_Forall.
    by eapply Forall_fresh.
Qed.

(** ** One step of fusion *)

Section one_step.
Variables (g : graph) (c p : string) (tc tp : Task).
Hypothesis Hc : g !! c = Some tc.
Hypothesis Hp : g !! p = Some tp.
Hypothesis Hpc : p ≠ c.
Hypothesis Honly : ∀ k t, g !! k = Some t → c ∈ strings_of t → k = p.

Variable g' : graph.
Hypothesis Hg' : g' = <[p := subs tp c tc]> (delete c g).

Lemma step_fresh_tc : c ∉ strings_of tc.
Proof using Hc Hpc Honly. intros Hin. apply Hpc. symmetry. by eapply Honly. Qed.

Lemma step_lookup_p : g' !! p = Some (subs tp c tc).
Proof using Hg'. rewrite Hg'. apply lookup_insert_eq. Qed.

Lemma step_lookup_other k : k ≠ c → k ≠ p → g' !! k = g !! k.
Proof using Hg'.
  intros ??. rewrite Hg', lookup_insert_ne by done.
  by rewrite lookup_delete_ne.
Qed.

(** Forward: whatever [g] yields for [t] within some depth, the fused
    graph yields for [t] with [c] inlined, within the same depth. *)
Lemma step_forward n :
  ∀ t r, settled r → get n g t = r → get n g' (subs t c tc) = r.
Proof using Hc Hp Hpc Honly Hg'.
  induction n as [n IHn] using lt_wf_ind. intros t.
  induction t as [z|s|ts IH|f args IH] using Task_nested_ind; intros r Hr; simpl.
  - by rewrite !get_int.
  - rewrite get_str. case_decide as Hs.
    + subst s. rewrite Hc. destruct n as [|d]; [by intros <-|].
      intros Hd. apply get_mono; [done|].
      rewrite <- (subs_fresh tc c tc) by apply step_fresh_tc.
      apply IHn; [lia|done..].
    + rewrite get_str. destruct (decide (s = p)) as [->|Hsp].
      * rewrite Hp, step_lookup_p. destruct n as [|d]; [done|].
        apply IHn; [lia|done].
      * rewrite step_lookup_other by done.
        destruct (g !! s) as [t'|] eqn:Es; [|done].
        destruct n as [|d]; [done|]. intros Hd.
        rewrite <- (subs_fresh t' c tc).
        -- apply IHn; [lia|done..].
        -- intros Hin. apply Hsp. by eapply Honly.
  - revert Hr. rewrite <- (map_id ts) at 1. by apply get_compound_sim.
  - revert Hr. rewrite <- (map_id args) at 1. by apply get_compound_sim.
Qed.

(** Backward: each key resolved in the fused graph costs at most two in
    [g], the dependent and the key inlined into it. *)
Lemma step_backward n :
  (∀ t r, c ∉ strings_of t → settled r →
     get n g' t = r → get (2 * n) g t = r) ∧
  (∀ t r, settled r →
     get n g' (subs t c tc) = r → get (2 * n + 1) g t = r).
Proof using Hc Hp Hpc Honly Hg'.
  induction n as [n IHn] using lt_wf_ind.
  assert (∀ t r, c ∉ strings_of t → settled r →
            get n g' t = r → get (2 * n) g t = r) as HA.
  { intros t.
    induction t as [z|s|ts IH|f args IH] using Task_nested_ind;
      intros r Hfresh Hr.
    - by rewrite !get_int.
    - assert (s ≠ c) as Hs by (intros ->; apply Hfresh; by left).
      rewrite !get_str. destruct (decide (s = p)) as [->|Hsp].
      + rewrite Hp, step_lookup_p. destruct n as [|d]; [by intros <-|].
        intros Hd. replace (2 * S d) with (S (2 * d + 1)) by lia.
        destruct (IHn d) as [_ HB]; [lia|]. by apply HB.
      + rewrite step_lookup_other by done.
        destruct (g !! s) as [t'|] eqn:Es; [|done].
        destruct n as [|d]; [by intros <-|]. intros Hd.
        replace (2 * S d) with (S (S (2 * d))) by lia.
        apply get_mono; [done|]. destruct (IHn d) as [HA _]; [lia|].
        apply HA; [|done..]. intros Hin. apply Hsp. by eapply Honly.
    - revert Hr. rewrite <- (map_id ts). apply get_compound_sim.
      apply (Forall_fresh _ c); [|done].
      eapply Forall_impl; [exact IH|]. simpl. eauto.
    - revert Hr. rewrite <- (map_id args). apply get_compound_sim.
      apply (Forall_fresh _ c); [|done].
      eapply Forall_impl; [exact IH|]. simpl. eauto. }
  split; [done|]. intros t.
  rewrite Nat.add_1_r.
  induction t as [z|s|ts IH|f args IH] using Task_nested_ind;
    intros r Hr; cbn [subs].
  - by rewrite !get_int.
  - case_decide as Hs.
    + subst s. intros Hd. rewrite get_str, Hc.
      apply HA; [apply step_fresh_tc|done..].
    + intros Hd. apply get_mono; [done|]. apply HA; [|done..].
      intros Hin. apply Hs. by apply list_elem_of_singleton in Hin.
  - revert Hr. rewrite <- (map_id ts) at 2. by apply get_compound_sim.
  - revert Hr. rewrite <- (map_id args) at 2. by apply get_compound_sim.
Qed.

End one_step.

(** ** Fusion, step by step *)

Lemma same_value_refl g k : same_value g g k.
Proof. split; eauto. Qed.

Lemma same_value_trans g1 g2 g3 k :
  same_value g1 g2 k → same_value g2 g3 k → same_value g1 g3 k.
Proof.
  intros [F12 B12] [F23 B23]. split.
  - intros n r Hr H1. by apply F23, F12.
  - intros n r Hr H3. destruct (B23 n r Hr H3) as [m H2]. by eapply B12.
Qed.

Lemma elem_of_get_dependencies g k t c :
  g !! k = Some t → is_Some (g !! c) → c ∈ strings_of t →
  c ∈ get_dependencies g k.
Proof.
  intros Hk Hc Hin. unfold get_dependencies, references. rewrite Hk.
  apply elem_of_list_to_set, list_elem_of_filter. done.
Qed.

Lemma dependents_only g c p :
  is_Some (g !! c) → dependents g c = [p] →
  ∀ k t, g !! k = Some t → c ∈ strings_of t → k = p.
Proof.
  unfold dependents. intros Hc Hdep k t Hk Hin.
  assert (k ∈ [p]) as Hkp; [|by apply list_elem_of_singleton in Hkp].
  rewrite <- Hdep. apply list_elem_of_filter. split.
  - by eapply elem_of_get_dependencies.
  - apply list_elem_of_fmap. exists (k, t). split; [done|].
    by apply elem_of_map_to_list.
Qed.

Lemma fuse_step_cases g c :
  fuse_step g c = g ∨
  ∃ p tc tp, g !! c = Some tc ∧ g !! p = Some tp ∧ p ≠ c ∧
    dependents g c = [p] ∧
    fuse_step g c = <[p := subs tp c tc]> (delete c g).
Proof.
  unfold fuse_step.
  destruct (g !! c) as [tc|] eqn:Ec; [|by left].
  destruct (dependents g c) as [|p [|??]] eqn:Ed; [by left| |by left].
  case_decide as Hpc; [by left|].
  destruct (g !! p) as [tp|] eqn:Ep; [|by left].
  right. by exists p, tc, tp.
Qed.

Lemma fuse_step_lookup g c k :
  is_Some (fuse_step g c !! k) → k ≠ c ∨ fuse_step g c = g.
Proof.
  destruct (fuse_step_cases g c) as [->|(p & tc & tp & _ & _ & Hpc & _ & ->)];
    [by right|].
  intros Hk. left. intros ->.
  rewrite lookup_insert_ne, lookup_delete_eq in Hk by done. by destruct Hk.
Qed.

Lemma fuse_step_dom g c : dom (fuse_step g c) ⊆ dom g.
Proof.
  destruct (fuse_step_cases g c) as [->|(p & tc & tp & _ & Hp & _ & _ & ->)];
    [done|].
  intros k Hk. apply elem_of_dom in Hk. apply elem_of_dom.
  destruct (decide (k = p)) as [->|Hkp]; [done|].
  rewrite lookup_insert_ne in Hk by done.
  destruct (decide (k = c)) as [->|Hkc].
  - rewrite lookup_delete_eq in Hk. by destruct Hk.
  - by rewrite lookup_delete_ne in Hk.
Qed.

Lemma fuse_step_keeps g c k :
  k ≠ c → k ∈ dom g → k ∈ dom (fuse_step g c).
Proof.
  destruct (fuse_step_cases g c) as [->|(p & tc & tp & _ & _ & _ & _ & ->)];
    [done|].
  intros Hkc Hk. apply elem_of_dom in Hk. apply elem_of_dom.
  destruct (decide (k = p)) as [->|Hkp]; [by rewrite lookup_insert_eq|].
  by rewrite lookup_insert_ne, lookup_delete_ne.
Qed.

Lemma fuse_step_same_value g c k :
  k ∈ dom (fuse_step g c) → same_value g (fuse_step g c) k.
Proof.
  intros Hk. apply elem_of_dom, fuse_step_lookup in Hk as Hkc.
  destruct (fuse_step_cases g c)
    as [->|(p & tc & tp & Hc & Hp & Hpc & Hdep & Hstep)];
    [apply same_value_refl|].
  destruct Hkc as [Hkc| ->]; [|apply same_value_refl]. rewrite Hstep.
  pose proof (dependents_only _ _ _ (mk_is_Some _ _ Hc) Hdep) as Honly.
  assert (subs (TStr k) c tc = TStr k) as Hsubs.
  { simpl. by case_decide. }
  split.
  - intros n r Hr Hn. rewrite <- Hsubs.
    by apply (step_forward g c p tc tp Hc Hp Hpc Honly _ eq_refl).
  - intros n r Hr Hn. exists (2 * n + 1).
    destruct (step_backward g c p tc tp Hc Hp Hpc Honly _ eq_refl n)
      as [_ HB].
    apply HB; [done|]. by rewrite Hsubs.
Qed.

Lemma foldl_fuse_step_dom l g : dom (foldl fuse_step g l) ⊆ dom g.
Proof.
  revert g. induction l as [|c l IH]; intros g; simpl; [done|].
  etrans; [apply IH|apply fuse_step_dom].
Qed.

Lemma foldl_fuse_step_keeps l g k :
  k ∉ l → k ∈ dom g → k ∈ dom (foldl fuse_step g l).
Proof.
  revert g. induction l as [|c l IH]; intros g Hl Hk; simpl; [done|].
  apply not_elem_of_cons in Hl as [Hkc Hl].
  apply IH; [done|]. by apply fuse_step_keeps.
Qed.

Lemma foldl_fuse_step_same_value l g k :
  k ∈ dom (foldl fuse_step g l) → same_value g (foldl fuse_step g l) k.
Proof.
  revert g. induction l as [|c l IH]; intros g; simpl.
  - intros _. apply same_value_refl.
  - intros Hk. eapply same_value_trans; [|by apply IH].
    apply fuse_step_same_value. by eapply foldl_fuse_step_dom.
Qed.

Lemma linear_link_dependents g c :
  linear_link g c = true → length (dependents g c) = 1.
Proof.
  unfold linear_link. by destruct (dependents g c) as [|p [|??]].
Qed.

Lemma same_value_evaluates g1 g2 k r :
  same_value g1 g2 k → evaluates g2 k r ↔ evaluates g1 k r.
Proof.
  intros [F B]. split; intros [Hr [n Hn]]; (split; [done|]).
  - by eapply B.
  - exists n. by apply F.
Qed.

(** ** test_fuse *)

(** [fuse] yields what test_fuse expects of it. *)
Example fuse_test_1 :
  fuse test_fuse_1 = list_to_map
    [("w", TApp inc [TApp inc [TApp inc [TApp add [TStr "a"; TStr "b"]]]]);
     ("a", TInt 1); ("b", TInt 2)].
Proof. vm_compute. reflexivity. Qed.

Example fuse_test_2 :
  fuse test_fuse_2 = list_to_map
    [("NEW", TApp inc [TStr "y"]); ("w", TApp inc [TApp inc [TStr "y"]]);
     ("y", TApp inc [TApp add [TStr "a"; TStr "b"]]);
     ("a", TInt 1); ("b", TInt 2)].
Proof. vm_compute. reflexivity. Qed.

Example fuse_test_3 :
  fuse test_fuse_3 = list_to_map
    [("u", TApp inc [TApp inc [TApp inc [TStr "y"]]]);
     ("v", TApp inc [TStr "y"]);
     ("y", TApp inc [TApp add [TStr "a"; TStr "b"]]);
     ("a", TApp inc [TInt 1]); ("b", TApp inc [TInt 2])].
Proof. vm_compute. reflexivity. Qed.

Example fuse_test_4 :
  fuse test_fuse_4 = list_to_map
    [("a", TApp inc [TStr "x"]); ("b", TApp inc [TStr "x"]);
     ("d", TApp inc [TApp inc [TStr "x"]]); ("x", TApp inc [TInt 0])].
Proof. vm_compute. reflexivity. Qed.

Example fuse_test_5 :
  fuse test_fuse_5 = list_to_map
    [("b", TApp inc [TInt 1]); ("c", TApp add [TStr "b"; TStr "b"])].
Proof. vm_compute. reflexivity. Qed.

(** test_get and test_nested_tasks. *)
Example get_test :
  get 3 test_get_d (TStr ":x") = Value (VInt 1) ∧
  get 3 test_get_d (TStr ":y") = Value (VInt 2) ∧
  get 3 test_get_d (TStr ":z") = Value (VInt 3) ∧
  get 3 test_get_d (TList [TList [TStr ":x"]; TStr ":y"])
  = Value (VList [VList [VInt 1]; VInt 2]).
Proof. vm_compute. done. Qed.

Example data_not_in_dict_is_ok :
  get 2 test_data_not_in_dict (TStr "y") = Value (VInt 11).
Proof. reflexivity. Qed.

(** test_get_dependencies_nested and test_subs. *)
Example get_dependencies_test :
  get_dependencies
    (list_to_map [("x", TInt 1); ("y", TInt 2);
                  ("z", TApp add [TApp inc [TList [TList [TStr "x"]]];
                                  TStr "y"])]) "z"
  = {[ "x"; "y" ]}.
Proof. vm_compute. reflexivity. Qed.

Example subs_test :
  subs (TApp inc [TList [TInt 1; TList [TStr "x"]]]) "x" (TInt 2)
  = TApp inc [TList [TInt 1; TList [TInt 2]]].
Proof. reflexivity. Qed.

(** C4. [fuse] never changes the externally observable value of a
    surviving key: for a key [k] of [fuse g], [get (fuse g) k] and
    [get g k] have the same result on a platform deep enough for it, the
    fused graph never needs more depth than [g], and where [g] fails at
    every depth so does the fused graph; and a key of [g] with more than one
    dependent is still a key of [fuse g]. *)
Theorem fuse_preserves_get (g : graph) (k : string) :
  (k ∈ dom (fuse g) →
     (∀ r, evaluates (fuse g) k r ↔ evaluates g k r) ∧
     (∀ depth r, settled r →
        get depth g (TStr k) = r → get depth (fuse g) (TStr k) = r) ∧
     ((∀ depth, get depth g (TStr k) = CycleOrTooDeep) →
      ∀ depth, get depth (fuse g) (TStr k) = CycleOrTooDeep)) ∧
  (k ∈ dom g → 1 < length (dependents g k) → k ∈ dom (fuse g)).
Proof.
  split.
  - intros Hk. pose proof (foldl_fuse_step_same_value _ _ _ Hk) as Hsame.
    split; [|split].
    + intros r. by apply same_value_evaluates.
    + apply Hsame.
    + intros Hcycle depth.
      destruct (get depth (fuse g) (TStr k)) as [v|e|] eqn:Hfused; [| |done].
      * destruct (proj2 Hsame depth (Value v) I Hfused) as [m Hm].
        by rewrite Hcycle in Hm.
      * destruct (proj2 Hsame depth (Failed e) I Hfused) as [m Hm].
        by rewrite Hcycle in Hm.
  - intros Hk Hfan. apply foldl_fuse_step_keeps; [|done].
    intros Hl. apply list_elem_of_filter in Hl as [Hl _].
    apply linear_link_dependents in Hl. lia.
Qed.

Lemma fuse_preserves_get_witness :
  "y" ∈ dom (fuse test_fuse_2) ∧
  (evaluates (fuse test_fuse_2) "y" (Value (VInt 4)) ↔
   evaluates test_fuse_2 "y" (Value (VInt 4))) ∧
  get 3 (fuse test_fuse_2) (TStr "y") = Value (VInt 4).
Proof.
  pose proof (fuse_preserves_get test_fuse_2 "y") as [Hsame Hfan].
  assert ("y" ∈ dom (fuse test_fuse_2)) as Hk.
  { apply Hfan; [apply elem_of_dom; vm_compute; eauto|vm_compute; lia]. }
  destruct (Hsame Hk) as (Hiff & Hdepth & _).
  split; [done|]. split; [apply Hiff|].
  apply Hdepth; [done|]. vm_compute. reflexivity.
Defined.


(** ** The chain of test_get_stack_limit *)













(** The first assertion of test_get_stack_limit, by evaluation. *)
Example chain_runs :
  get 10001 (chain 10000) (TStr "x10000") = Value (VInt 10000).
Proof. vm_compute. reflexivity. Qed.




End DaskFacts.

(* ===================================================================== *)
(** * Properties of the chunked sequences and of the h5py backend          *)
(* ===================================================================== *)

Module PyFacts.
Import Py.

(** [try: ... except: pass] lets nothing through. *)
Lemma try_pass_returns {St : Type} (s : St) (c : outcome St) :
  ¬ raises (try_pass s c).
Proof. destruct c; simpl; tauto. Qed.

(** The fuel of [range] is enough: it holds every multiple of the step
    below [n]. *)
Lemma range_from_spec fuel (i n step j : Z) :
  (0 < step)%Z → (n - i ≤ Z.of_nat fuel)%Z →
  j ∈ range_from fuel i n step
  ↔ ∃ k : nat, j = (i + Z.of_nat k * step)%Z ∧ (j < n)%Z.
Proof.
  intros Hstep. revert i. induction fuel as [|fuel IH]; intros i Hfuel; simpl.
  - split; [by intros ?%elem_of_nil|]. intros (k & -> & Hk). nia.
  - destruct (Z.ltb_spec i n) as [Hi|Hi].
    + rewrite elem_of_cons, IH by lia. split.
      * intros [->|(k & -> & Hk)]; [exists 0%nat; lia|exists (S k); lia].
      * intros ([|k] & -> & Hk); [left; lia|right; exists k; lia].
    + split; [by intros ?%elem_of_nil|]. intros (k & -> & Hk). nia.
Qed.

Lemma range_spec (n : Z) (step : positive) (j : Z) :
  j ∈ range n step
  ↔ ∃ k : nat, j = (Z.of_nat k * Z.pos step)%Z ∧ (j < n)%Z.
Proof. unfold range. rewrite range_from_spec by lia. naive_solver. Qed.

End PyFacts.

Module ChunksFacts.
Import Chunks.

Section iteration.
Context {A : Type}.
Implicit Types (h : heap A) (l : list A).

Lemma alloc_lookup l h : (alloc l h).2 !! (alloc l h).1 = Some l.
Proof. unfold alloc. simpl. apply lookup_insert_eq. Qed.

Lemma drain_alloc l h : (drain (alloc l h).1 (alloc l h).2).1 = l.
Proof. unfold drain. by rewrite alloc_lookup. Qed.

(** A drained iterator yields nothing more. *)
Lemma drain_twice it h : (drain it (drain it h).2).1 = [].
Proof.
  unfold drain. destruct (h !! it) as [items|] eqn:E; simpl.
  - by rewrite lookup_insert_eq.
  - by rewrite E.
Qed.

(** [drain] is what calling [next] until it yields nothing gives. *)
Lemma drain_next it h a rest :
  h !! it = Some (a :: rest) →
  (next it h).1 = Some a ∧
  (drain it h).1 = a :: (drain it (next it h).2).1.
Proof.
  intros Hit. unfold next, drain. rewrite Hit. simpl.
  by rewrite lookup_insert_eq.
Qed.

Lemma next_drain it h : (next it (drain it h).2).1 = None.
Proof.
  unfold next, drain. destruct (h !! it) as [items|] eqn:E; simpl.
  - by rewrite lookup_insert_eq.
  - by rewrite E.
Qed.

(** Every iteration of a sequence built from a factory starts anew. *)
Lemma iterate_factory l h :
  (iterate (chunks (Factory (alloc l))) h).1 = l.
Proof. unfold iterate, iter. simpl. apply drain_alloc. Qed.

(** A sequence built from a generator object yields its items once. *)
Lemma iterate_generator_again it h :
  let c := chunks (Generator it) in
  (iterate c (iterate c h).2).1 = [].
Proof. unfold iterate, iter. simpl. apply drain_twice. Qed.

End iteration.
End ChunksFacts.

Module H5pyFacts.
Import Py H5py.
#[local] Open Scope Z_scope.

(** ** convert to chunks *)

Lemma h5py_chunks_first_iteration t chunksize h :
  let (c, h0) := h5py_to_numpy_chunks t chunksize h in
  (Chunks.iterate c h0).1 = h5py_to_numpy_items t chunksize.
Proof.
  unfold h5py_to_numpy_chunks, h5py_to_numpy_iterator. simpl.
  unfold Chunks.iterate, Chunks.iter. simpl.
  apply (ChunksFacts.drain_alloc (h5py_to_numpy_items t chunksize) h).
Qed.

Example three_rows_items :
  h5py_to_numpy_items three_rows 2 = [array [2] [10; 20]; array [1] [30]].
Proof. reflexivity. Qed.

(** C1, on the code of [h5py_to_numpy_chunks]: the chunked sequence wraps
    the generator object itself, so its first iteration yields the windows
    of the dataset and every later one yields nothing; for the dataset
    [three_rows] the first iteration yields two chunks and the second
    none. *)
Theorem h5py_chunks_second_iteration_empty :
  (∀ t chunksize h,
     let (c, h0) := h5py_to_numpy_chunks t chunksize h in
     let (l1, h1) := Chunks.iterate c h0 in
     let (l2, _) := Chunks.iterate c h1 in
     l1 = h5py_to_numpy_items t chunksize ∧ l2 = []) ∧
  (let (c, h0) := h5py_to_numpy_chunks three_rows 2 ∅ in
   let (l1, h1) := Chunks.iterate c h0 in
   let (l2, _) := Chunks.iterate c h1 in
   l1 = [array [2] [10; 20]; array [1] [30]] ∧ l2 = []).
Proof.
  assert (∀ t chunksize h,
     let (c, h0) := h5py_to_numpy_chunks t chunksize h in
     let (l1, h1) := Chunks.iterate c h0 in
     let (l2, _) := Chunks.iterate c h1 in
     l1 = h5py_to_numpy_items t chunksize ∧ l2 = []) as Hall.
  { intros t chunksize h.
    pose proof (h5py_chunks_first_iteration t chunksize h) as H1.
    destruct (h5py_to_numpy_chunks t chunksize h) as [c h0] eqn:Ec.
    assert (c = Chunks.chunks (Chunks.Generator (fresh (dom h)))) as ->.
    { unfold h5py_to_numpy_chunks, h5py_to_numpy_iterator in Ec.
      simpl in Ec. by injection Ec as <- _. }
    pose proof (ChunksFacts.iterate_generator_again (fresh (dom h)) h0) as H2.
    simpl in H2.
    destruct (Chunks.iterate _ h0) as [l1 h1]. simpl in *.
    destruct (Chunks.iterate _ h1) as [l2 h2]. simpl in *. done. }
  split; [exact Hall|].
  pose proof (Hall three_rows 2%positive ∅) as H.
  destruct (h5py_to_numpy_chunks three_rows 2 ∅) as [c h0].
  destruct (Chunks.iterate c h0) as [l1 h1].
  destruct (Chunks.iterate c h1) as [l2 h2].
  destruct H as [-> ->]. done.
Qed.

(** ** convert to an array *)

Lemma h5py_to_numpy_small dset force :
  size dset ≤ 10 ^ 9 → h5py_to_numpy dset force = Return (getitem_all dset).
Proof.
  intros Hsize. unfold h5py_to_numpy.
  destruct (Z.ltb_spec (10 ^ 9) (size dset)); [lia|done].
Qed.

(** C3, on the code of [h5py_to_numpy]: for a dataset of more than 10^9
    elements the conversion raises whatever [force] is, and what it raises
    is the TypeError of dividing the formatted message by a float, not a
    MemoryError. *)
Theorem h5py_to_numpy_large dset force :
  10 ^ 9 < size dset → h5py_to_numpy dset force = Raise TypeError.
Proof.
  intros Hsize. unfold h5py_to_numpy.
  destruct (Z.ltb_spec (10 ^ 9) (size dset)); [done|lia].
Qed.

Lemma h5py_to_numpy_large_witness :
  h5py_to_numpy gigaelement true = Raise TypeError.
Proof. apply h5py_to_numpy_large. reflexivity. Defined.

(** ** cleanup *)

(** [cleanup_file] never raises, on an open file or a closed one. *)
Lemma cleanup_file_twice f :
  ∃ f', cleanup_file f = Return f' ∧ cleanup_file f' = Return f'.
Proof.
  destruct f as [fname [|]]; unfold cleanup_file, File_close; simpl; eauto.
Qed.

(** C6, on the code of [cleanup_dataset]: the first call closes the file of
    the dataset and the second call raises, as nothing catches what h5py
    raises for a dataset whose file is closed. *)
Theorem cleanup_dataset_twice_raises dset :
  is_open (dfile dset) = true →
  ∃ dset', cleanup_dataset dset = Return dset' ∧
           cleanup_dataset dset' = Raise ValueError.
Proof.
  destruct dset as [[fname opened] sh mx ch fl fv]. simpl. intros ->.
  eexists. split; reflexivity.
Qed.

Lemma cleanup_dataset_twice_raises_witness :
  ∃ dset', cleanup_dataset open_dataset = Return dset' ∧
           cleanup_dataset dset' = Raise ValueError.
Proof. apply cleanup_dataset_twice_raises. reflexivity. Defined.

(** ** append *)

Lemma product_nonneg l : Forall (λ n, 0 ≤ n) l → 0 ≤ product l.
Proof. induction 1; simpl; lia. Qed.

Lemma sum_pos n l : 0 < n → Forall (λ m, 0 ≤ m) l → sum (n :: l) ≠ 0.
Proof.
  intros Hn Hl. simpl.
  assert (0 ≤ sum l) by (induction Hl; simpl; lia). lia.
Qed.

Lemma broadcastable_rev_refl l : broadcastable_rev l l = true.
Proof.
  induction l as [|n l IH]; simpl; [done|].
  rewrite IH, Z.eqb_refl. by rewrite orb_true_r.
Qed.

Lemma aligned_same sh : aligned sh (length sh) = sh.
Proof. unfold aligned. by rewrite Nat.sub_diag. Qed.

(** Cutting a list into [t] blocks of [rs] elements and joining them again
    gives the list back. *)
Lemma concat_blocks {A : Type} (rs t : nat) (l : list A) :
  length l = (t * rs)%nat →
  concat ((λ i, take rs (drop (i * rs) l)) <$> seq 0 t) = l.
Proof.
  revert l. induction t as [|t IH]; intros l Hl; simpl.
  - by destruct l.
  - rewrite <- fmap_S_seq, <- list_fmap_compose.
    etrans; [|apply (take_drop rs l)]. f_equal.
    etrans; [|apply (IH (drop rs l)); rewrite length_drop; lia].
    f_equal. apply list_fmap_ext. intros _ i _. simpl.
    by rewrite drop_drop.
Qed.

(** Broadcasting to the shape that the array has changes nothing. *)
Lemma broadcast_same sh :
  Forall (λ n, 0 ≤ n) sh →
  ∀ l, length l = Z.to_nat (product sh) → broadcast sh sh l = l.
Proof.
  induction 1 as [|t sh Ht Hsh IH]; intros l Hl; simpl; [done|].
  rewrite Z.eqb_refl. pose proof (product_nonneg _ Hsh) as Hrs.
  simpl in Hl. rewrite Z2Nat.inj_mul in Hl by done.
  etrans; [|apply (concat_blocks (Z.to_nat (product sh)) (Z.to_nat t) l Hl)].
  f_equal. apply list_fmap_ext. intros j i Hi. apply IH.
  apply lookup_seq in Hi as [-> Hi]. simpl.
  rewrite length_take, length_drop. nia.
Qed.

Example broadcast_column :
  broadcast [2; 1] [2; 3] [7; 8] = [7; 7; 7; 8; 8; 8].
Proof. reflexivity. Qed.

Example broadcast_row :
  broadcast (aligned [3] 2) [2; 3] [1; 2; 3] = [1; 2; 3; 1; 2; 3].
Proof. reflexivity. Qed.

(** The rows of a non-empty array whose rows have the shape of the rows of
    the dataset are added at the end of a dataset that may grow: the leading
    extent grows by their number and the elements of the dataset are
    followed by those of the array. *)
Lemma append_h5py_rows dset x n k rest :
  dshape dset = n :: rest → shape x = k :: rest →
  0 ≤ n → 0 < k → Forall (λ m, 0 ≤ m) rest →
  length (dflat dset) = Z.to_nat (n * product rest) →
  length (flat x) = Z.to_nat (k * product rest) →
  chunked dset = true → within (n + k) (hd None (maxshape dset)) = true →
  append_h5py dset x =
  Return (dataset (dfile dset) ((n + k) :: rest) (maxshape dset) true
            (dflat dset ++ flat x) (fillvalue dset)).
Proof.
  intros Hd Hx Hn Hk Hrest Hlen Hxlen Hch Hmax.
  pose proof (product_nonneg _ Hrest) as Hrs.
  unfold append_h5py. rewrite Hx.
  destruct (Z.eqb_spec (sum (k :: rest)) 0) as [Hsum|_];
    [by apply sum_pos in Hsum|].
  rewrite Hd. unfold len. rewrite Hx. simpl.
  unfold resize_leading. rewrite Hch, Hmax, Hd. simpl.
  unfold row_size. simpl.
  rewrite take_ge by (rewrite Hlen; nia).
  replace (n + k - n) with k by lia.
  unfold setitem_tail. cbn [dshape dflat dfile maxshape chunked fillvalue hd tail].
  unfold row_size. cbn [tail].
  destruct (Z.eqb_spec k 0) as [|_]; [lia|].
  replace (Z.max (n + k - k) 0) with n by lia.
  replace (n + k - n) with k by lia.
  change (product (k :: rest)) with (k * product rest).
  destruct (Z.eqb_spec (k * product rest) 0) as [Hz|Hnz].
  - do 2 f_equal. rewrite Hz. simpl. rewrite Hz in Hxlen.
    by destruct (flat x).
  - rewrite Hx. unfold broadcastable. rewrite broadcastable_rev_refl.
    cbn [negb]. change (product (k :: rest)) with (k * product rest).
    destruct (Z.eqb_spec (k * product rest) 0) as [|_]; [done|].
    do 2 f_equal.
    rewrite take_app_length' by (rewrite Hlen; done). f_equal.
    change (length (k :: rest)) with (length (shape (array (k :: rest) []))).
    simpl shape. rewrite aligned_same.
    apply broadcast_same; [constructor; [lia|done]|done].
Qed.

(** C8, on the code of [append_h5py]: the test for an empty array is
    [not sum(x.shape)], which an array of shape (0, 5) or (5, 0) does not
    pass although it has no element.  Appending the first to a dataset of
    shape (3, 5) assigns it to [dset[-0:]], the whole dataset, which h5py
    refuses; appending the second to a dataset of shape (3, 0) resizes the
    dataset to (8, 0).  A 0-d array passes the test although it has an
    element, and is not appended. *)
Theorem append_h5py_empty_array :
  product (shape none_by_five) = 0 ∧
  append_h5py three_by_five none_by_five = Raise TypeError ∧
  product (shape five_by_none) = 0 ∧
  append_h5py three_by_none five_by_none =
  Return (dataset (file "data.h5" true) [8; 0] [None; None] true [] 0) ∧
  product (shape scalar) = 1 ∧
  append_h5py three_by_five scalar = Return three_by_five.
Proof. repeat split; reflexivity. Qed.

(** Only the arrays whose extents are all zero, and the 0-d arrays, count
    as empty. *)
Lemma append_h5py_no_op dset x :
  sum (shape x) = 0 → append_h5py dset x = Return dset.
Proof. intros Hsum. unfold append_h5py. by rewrite Hsum. Qed.

End H5pyFacts.

(* ===================================================================== *)
(** * Properties of the hdfstore backend                                   *)
(* ===================================================================== *)

Module HDFStoreFacts.
Import Py HDFStore.
#[local] Open Scope Z_scope.

(** ** convert to chunks *)

(** Every iteration of the chunked sequence calls [load] and yields the
    selection again. *)
Lemma hdfstore_chunks_restartable t chunksize (h : Chunks.heap DataFrame) :
  let c := hdfstore_to_dataframe_chunks t chunksize in
  let (l1, h1) := Chunks.iterate c h in
  let (l2, _) := Chunks.iterate c h1 in
  l1 = select_chunks t chunksize ∧ l2 = select_chunks t chunksize.
Proof.
  simpl. unfold hdfstore_to_dataframe_chunks.
  pose proof (ChunksFacts.iterate_factory (select_chunks t chunksize) h) as H1.
  destruct (Chunks.iterate _ h) as [l1 h1]. simpl in H1.
  pose proof (ChunksFacts.iterate_factory (select_chunks t chunksize) h1) as H2.
  destruct (Chunks.iterate _ h1) as [l2 h2]. simpl in H2. done.
Qed.

Example select_chunks_of_three :
  select_chunks (table "bar" ["volume"] [[1]; [2]; [3]] true false 0%nat) 2
  = [frame ["volume"] [[1]; [2]]; frame ["volume"] [[3]]].
Proof. reflexivity. Qed.

(** ** cleanup *)

(** Whatever closing the store does, [cleanup] does not raise, the first
    time or the second. *)
Lemma cleanup_twice (close : Store → outcome Store) parent :
  ∃ parent', cleanup close parent = Return parent' ∧
             ¬ raises (cleanup close parent').
Proof.
  unfold cleanup. destruct (close parent) as [parent'|e]; simpl.
  - exists parent'. split; [done|]. apply PyFacts.try_pass_returns.
  - exists parent. split; [done|]. apply PyFacts.try_pass_returns.
Qed.

(** ** append of chunks *)

(** What appending frames never changes. *)
Lemma append_each_keeps data t :
  let t' := (append_each data t).2 in
  name t' = name t ∧ tcolumns t' = tcolumns t ∧
  autoindex t' = autoindex t ∧ reindexed t' = reindexed t.
Proof.
  revert t. induction data as [|chunk data IH]; intros t; simpl; [done|].
  unfold append_frame_to_hdfstore, HDFStore_append.
  case_bool_decide; simpl; [|done].
  specialize (IH (table (name t) (tcolumns t) (trows t ++ rows chunk)
                    (autoindex t) (dirty t || negb (autoindex t))
                    (reindexed t))).
  simpl in IH. done.
Qed.

(** Frames with the columns of the table are all appended, in order. *)
Lemma append_each_returns data t :
  Forall (λ chunk, columns chunk = tcolumns t) data →
  (append_each data t).1 = Return () ∧
  trows (append_each data t).2 = trows t ++ concat (rows <$> data).
Proof.
  revert t. induction data as [|chunk data IH]; intros t Hcols; simpl.
  - by rewrite app_nil_r.
  - apply Forall_cons in Hcols as [Hchunk Hcols].
    unfold append_frame_to_hdfstore, HDFStore_append.
    rewrite bool_decide_true by done. simpl.
    destruct (IH (table (name t) (tcolumns t) (trows t ++ rows chunk)
                    (autoindex t) (dirty t || negb (autoindex t))
                    (reindexed t)) Hcols) as [-> ->].
    simpl. by rewrite <- app_assoc.
Qed.

(** A frame with other columns stops the loop with pandas' ValueError. *)
Lemma append_each_raises data t :
  Exists (λ chunk, columns chunk ≠ tcolumns t) data →
  (append_each data t).1 = Raise ValueError.
Proof.
  revert t. induction data as [|chunk data IH]; intros t Hbad; simpl.
  - by apply Exists_nil in Hbad.
  - unfold append_frame_to_hdfstore, HDFStore_append.
    case_bool_decide as Hchunk; simpl; [|done].
    apply Exists_cons in Hbad as [Hbad|Hbad]; [done|].
    by apply IH.
Qed.

(** When every chunk is appended, the table is left with autoindexing on
    and its indexes rebuilt. *)
Lemma append_chunks_returns data t :
  Forall (λ chunk, columns chunk = tcolumns t) data →
  ∃ t', append_chunks_to_hdfstore data t = (Return (), t') ∧
        autoindex t' = true ∧ dirty t' = false ∧
        trows t' = trows t ++ concat (rows <$> data).
Proof.
  intros Hcols. unfold append_chunks_to_hdfstore, ensure_indexing.
  destruct (append_each_returns data (set_autoindex false t) Hcols)
    as [Hret Hrows].
  destruct (append_each data (set_autoindex false t)) as [r t1].
  simpl in Hret, Hrows. subst r. eexists. split; [done|]. by simpl.
Qed.

(** C2, on the code of [ensure_indexing]: when appending one of the chunks
    raises, the error propagates and the table is left with autoindexing
    off and without any rebuilt index. *)
Theorem append_chunks_error_leaves_autoindex_off data t :
  Exists (λ chunk, columns chunk ≠ tcolumns t) data →
  ∃ t', append_chunks_to_hdfstore data t = (Raise ValueError, t') ∧
        autoindex t' = false ∧ reindexed t' = reindexed t.
Proof.
  intros Hbad. unfold append_chunks_to_hdfstore, ensure_indexing.
  pose proof (append_each_raises data (set_autoindex false t) Hbad) as Hraise.
  pose proof (append_each_keeps data (set_autoindex false t))
    as (_ & _ & Hauto & Hre).
  destruct (append_each data (set_autoindex false t)) as [r t1].
  simpl in *. subst r. by exists t1.
Qed.

Lemma append_chunks_error_leaves_autoindex_off_witness :
  ∃ t', append_chunks_to_hdfstore [fitting; unfitting] populated
        = (Raise ValueError, t') ∧
        autoindex t' = false ∧ reindexed t' = reindexed populated.
Proof.
  apply append_chunks_error_leaves_autoindex_off.
  apply Exists_cons_tl, Exists_cons_hd. simpl. discriminate.
Defined.

Example append_chunks_error_state :
  append_chunks_to_hdfstore [fitting; unfitting] populated =
  (Raise ValueError,
   table "bar" ["volume"; "planet"] [[100; 1]; [200; 2]] false true 0%nat).
Proof. reflexivity. Qed.

End HDFStoreFacts.

(* ===================================================================== *)
(** * Properties of the S3 backend                                         *)
(* ===================================================================== *)

Module AwsFacts.
Import Py Aws.

(** ** convert *)

Lemma convert_csv_to_s3_no_bucket s csv_path key secret w :
  convert_csv_to_s3 s csv_path None key secret w = (Raise AssertionError, w).
Proof. done. Qed.

Lemma S3_of_instance uri conn :
  S3 [CSV uri] [("s3", Conn conn)] = Raise TypeError.
Proof. done. Qed.

(** [S3(CSV)], as [resource_s3_csv] calls it. *)
Example S3_of_class : S3 [Class "CSV"] [] = Return (Class "S3(CSV)").
Proof. done. Qed.

(** C9, on the code of [convert_csv_to_s3]: with a bucket name, the local
    file is uploaded under its base name with content type text/csv, and
    then the call [S3(CSV(...), s3=s3)] raises TypeError: no S3(CSV)
    instance is returned. *)
Theorem convert_csv_to_s3_raises s csv_path bucket key secret w data :
  local w !! csv_path = Some data →
  ∃ w', convert_csv_to_s3 s csv_path (Some bucket) key secret w
        = (Raise TypeError, w') ∧
        service w' !! bucket ≫= (.!! basename csv_path)
        = Some (s3_object data "text/csv").
Proof.
  intros Hdata. unfold convert_csv_to_s3.
  destruct (get_s3_connection _ _ _) as [s3 m]. rewrite Hdata.
  eexists. split; [reflexivity|]. simpl.
  rewrite lookup_insert_eq. simpl. by rewrite lookup_insert_eq.
Qed.

Lemma convert_csv_to_s3_raises_witness :
  ∃ w', convert_csv_to_s3 no_settings "data/tips.csv" (Some "nyqpug")
          None None one_file
        = (Raise TypeError, w') ∧
        service w' !! "nyqpug" ≫= (.!! basename "data/tips.csv")
        = Some (s3_object (list_ascii_of_string "a,b") "text/csv").
Proof. apply convert_csv_to_s3_raises. reflexivity. Defined.

Example basename_of_path : basename "data/tips.csv" = "tips.csv".
Proof. reflexivity. Qed.

(** ** sample *)

Lemma rindex_Some sub raw i :
  rindex sub raw = Some i → i ≤ length raw ∧ sub `prefix_of` drop i raw.
Proof.
  revert i. induction raw as [|a raw IH]; intros i; simpl.
  - case_bool_decide; [|done]. intros [= <-]. by subst.
  - destruct (rindex sub raw) as [j|].
    + intros [= <-]. destruct (IH j eq_refl). split; [lia|done].
    + case_bool_decide; [|done]. intros [= <-]. split; [lia|done].
Qed.

Lemma rindex_None sub raw j :
  rindex sub raw = None → j ≤ length raw → ¬ sub `prefix_of` drop j raw.
Proof.
  revert j. induction raw as [|a raw IH]; intros j; simpl.
  - case_bool_decide as Hsub; [done|]. intros _ Hj Hpre.
    rewrite drop_nil in Hpre. by apply prefix_nil_inv in Hpre.
  - destruct (rindex sub raw) as [i|] eqn:Hraw; [done|].
    case_bool_decide as Hpre; [done|]. intros _ Hj.
    destruct j as [|j]; [done|]. simpl. apply IH; [done|lia].
Qed.

(** [rindex] finds the last occurrence. *)
Lemma rindex_last sub raw i j :
  rindex sub raw = Some i → i < j ≤ length raw →
  ¬ sub `prefix_of` drop j raw.
Proof.
  revert i j. induction raw as [|a raw IH]; intros i j; simpl.
  - lia.
  - destruct (rindex sub raw) as [i'|] eqn:Hraw.
    + intros [= <-] Hj. destruct j as [|j]; [lia|]. simpl.
      apply (IH i'); [done|lia].
    + case_bool_decide; [|done]. intros [= <-] Hj.
      destruct j as [|j]; [lia|]. simpl.
      apply rindex_None; [done|lia].
Qed.

Lemma rindex_LF_Some raw : LF ∈ raw → is_Some (rindex [LF] raw).
Proof.
  induction raw as [|a raw IH]; intros Hin; simpl.
  - by apply elem_of_nil in Hin.
  - apply elem_of_cons in Hin as [<-|Hin].
    + destruct (rindex [LF] raw); [done|].
      rewrite bool_decide_true; [done|]. by exists raw.
    + destruct (IH Hin) as [i ->]. done.
Qed.

(** C7, as amended.  For an object larger than the sample length whose
    first [length + 1] bytes hold a linefeed, [sample_s3_csv] yields the
    path of the temporary file, whose bytes are a prefix of the object that
    ends where a line of the object ends (a carriage-return-linefeed or a
    linefeed follows), cut as [truncated] says, and of at most [length]
    bytes. *)
Theorem sample_s3_csv_whole_lines object length fn fs :
  length < List.length object →
  LF ∈ get_range object length →
  ∃ sample,
    sample_s3_csv object length fn fs = Return (fn, <[fn := sample]> fs) ∧
    sample `prefix_of` object ∧
    (∃ rest, object = sample ++ [CR; LF] ++ rest ∨
             object = sample ++ [LF] ++ rest) ∧
    truncated (get_range object length) sample ∧
    List.length sample ≤ length.
Proof.
  intros Hlarger HLF. unfold sample_s3_csv, truncated.
  set (raw := get_range object length) in *.
  assert (List.length raw = S length) as Hraw.
  { unfold raw, get_range. rewrite length_take. lia. }
  assert (∀ sub i, sub ≠ [] → rindex sub raw = Some i →
            take i raw `prefix_of` object ∧
            (∃ rest, object = take i raw ++ sub ++ rest) ∧
            List.length (take i raw) ≤ length) as Hcut.
  { intros sub i Hsub Hi. apply rindex_Some in Hi as [Hi [k Hk]].
    assert (raw `prefix_of` object) as [k' Hk'].
    { exists (drop (S length) object). unfold raw, get_range.
      by rewrite take_drop. }
    assert (raw = take i raw ++ sub ++ k) as Hsplit.
    { by rewrite <- Hk, take_drop. }
    split; [|split].
    - exists (drop i raw ++ k'). by rewrite app_assoc, take_drop.
    - exists (k ++ k'). rewrite Hk' at 1. rewrite Hsplit at 1.
      by rewrite <- !app_assoc.
    - apply (f_equal List.length) in Hsplit.
      rewrite !length_app, Hraw in Hsplit.
      destruct sub; [done|]. simpl in Hsplit. lia. }
  destruct (rindex [CR; LF] raw) as [i|] eqn:Hcrlf; simpl.
  - destruct (Hcut [CR; LF] i) as (Hpre & [rest Hrest] & Hlen); [done..|].
    exists (take i raw). split; [done|]. split; [done|].
    split; [exists rest; by left|]. done.
  - destruct (rindex_LF_Some raw HLF) as [i Hlf]. rewrite Hlf. simpl.
    destruct (Hcut [LF] i) as (Hpre & [rest Hrest] & Hlen); [done..|].
    exists (take i raw). split; [done|]. split; [done|].
    split; [exists rest; by right|]. split; [by exists i|done].
Qed.

Lemma sample_s3_csv_whole_lines_witness :
  ∃ sample,
    sample_s3_csv three_lines 8 "tmp.csv" ∅
    = Return ("tmp.csv", <["tmp.csv" := sample]> ∅) ∧
    sample `prefix_of` three_lines ∧
    (∃ rest, three_lines = sample ++ [CR; LF] ++ rest ∨
             three_lines = sample ++ [LF] ++ rest) ∧
    truncated (get_range three_lines 8) sample ∧
    List.length sample ≤ 8.
Proof.
  apply sample_s3_csv_whole_lines.
  - vm_compute. lia.
  - vm_compute. do 4 right. left.
Defined.

Example sample_of_three_lines :
  sample_s3_csv three_lines 8 "tmp.csv" ∅
  = Return ("tmp.csv", {[ "tmp.csv" := list_ascii_of_string "a,b" ]}).
Proof. reflexivity. Qed.

(** C7 as stated fails: the object is larger than the sample length, and
    [sample_s3_csv] raises ValueError instead of yielding a path. *)
Lemma sample_s3_csv_no_line_break :
  4 < List.length one_long_line ∧
  sample_s3_csv one_long_line 4 "tmp.csv" ∅ = Raise ValueError.
Proof. split; [vm_compute; lia|reflexivity]. Qed.

End AwsFacts.

(* ===================================================================== *)
(** * Properties of the chunked reading and appending of h5py datasets     *)
(* ===================================================================== *)

Module H5pyChunksFacts.
Import Py H5py H5pyChunks.
#[local] Open Scope Z_scope.

(** ** The windows of a dataset *)

Lemma take_drop_window {A : Type} (l : list A) (a b : nat) :
  take b (drop a l) ++ drop (a + b) l = drop a l.
Proof. by rewrite <- (take_drop b (drop a l)) at 2; rewrite drop_drop. Qed.

(** From the row [i] on, the windows hold the rest of the dataset, row by
    row, each of at most [chunksize] rows. *)
Lemma windows_from t chunksize n rest fuel :
  dshape t = n :: rest → 0 ≤ n → fills (n :: rest) (dflat t) →
  ∀ i, 0 ≤ i → n - i ≤ Z.of_nat fuel →
  concat (flat <$> ((λ i, getitem_rows t i (i + Z.pos chunksize))
                      <$> range_from fuel i n (Z.pos chunksize)))
  = drop (Z.to_nat (i * product rest)) (dflat t) ∧
  Forall (λ x, ∃ k, k ≤ Z.pos chunksize ∧ rows_of rest k x)
    ((λ i, getitem_rows t i (i + Z.pos chunksize))
       <$> range_from fuel i n (Z.pos chunksize)) ∧
  count_rows ((λ i, getitem_rows t i (i + Z.pos chunksize))
                <$> range_from fuel i n (Z.pos chunksize))
  = Z.max 0 (n - i).
Proof.
  intros Hsh Hn [Hnonneg Hlen]. apply Forall_cons in Hnonneg as [_ Hrest].
  pose proof (H5pyFacts.product_nonneg _ Hrest) as Hrs.
  cbn [product foldr] in Hlen. fold (product rest) in Hlen.
  assert (∀ i, n ≤ i →
    drop (Z.to_nat (i * product rest)) (dflat t) = []) as Hpast.
  { intros i Hi. apply drop_ge. rewrite Hlen. nia. }
  induction fuel as [|fuel IH]; intros i Hi Hfuel; cbn [range_from].
  - rewrite Hpast by lia. split; [done|]. split; [constructor|].
    cbn. lia.
  - destruct (Z.ltb_spec i n) as [Hin|Hin].
    + destruct (IH (i + Z.pos chunksize)) as (Hcat & Hall & Hcount);
        [lia|lia|].
      rewrite !fmap_cons. cbn [concat count_rows foldr].
      fold (count_rows ((λ i, getitem_rows t i (i + Z.pos chunksize))
              <$> range_from fuel (i + Z.pos chunksize) n (Z.pos chunksize))).
      rewrite Hcat, Hcount.
      set (k := Z.min (i + Z.pos chunksize) n - i).
      assert (getitem_rows t i (i + Z.pos chunksize)
              = array (k :: rest)
                  (take (Z.to_nat (k * product rest))
                     (drop (Z.to_nat (i * product rest)) (dflat t))))
        as -> by (unfold getitem_rows, row_size; by rewrite Hsh).
      cbn [flat shape hd].
      assert (0 < k ≤ Z.pos chunksize) as Hk by (unfold k; lia).
      assert (length (take (Z.to_nat (k * product rest))
                        (drop (Z.to_nat (i * product rest)) (dflat t)))
              = Z.to_nat (k * product rest)) as Hwin.
      { rewrite length_take, length_drop, Hlen. unfold k. nia. }
      split; [|split].
      * destruct (Z.le_gt_cases (i + Z.pos chunksize) n) as [Hfull|Hlast].
        -- replace (Z.to_nat ((i + Z.pos chunksize) * product rest))
             with (Z.to_nat (i * product rest)
                   + Z.to_nat (k * product rest))%nat by (unfold k; nia).
           apply take_drop_window.
        -- rewrite (Hpast (i + Z.pos chunksize)) by lia.
           rewrite app_nil_r. apply take_ge.
           rewrite length_drop, Hlen. unfold k. nia.
      * constructor; [|done]. exists k. split; [lia|].
        split; [lia|]. split; [done|exact Hwin].
      * unfold k. lia.
    + rewrite Hpast by lia. split; [done|]. split; [constructor|].
      cbn. lia.
Qed.

(** X1. The chunks that [h5py_to_numpy_iterator] yields hold the rows of
    the dataset, all of them and in order: each chunk holds between one and
    [chunksize] rows of the shape of the rows of the dataset, the chunks
    together hold as many rows as the dataset, and their elements, chunk
    after chunk, are the elements of the dataset. *)
Theorem h5py_to_numpy_items_cover t chunksize n rest :
  dshape t = n :: rest → 0 ≤ n → fills (n :: rest) (dflat t) →
  concat (flat <$> h5py_to_numpy_items t chunksize) = dflat t ∧
  Forall (λ x, ∃ k, k ≤ Z.pos chunksize ∧ rows_of rest k x)
         (h5py_to_numpy_items t chunksize) ∧
  count_rows (h5py_to_numpy_items t chunksize) = n.
Proof.
  intros Hsh Hn Hfills. unfold h5py_to_numpy_items, range. rewrite Hsh.
  simpl hd.
  destruct (windows_from t chunksize n rest (Z.to_nat n) Hsh Hn Hfills 0)
    as (Hcat & Hall & Hcount); [lia|lia|].
  rewrite Hcat, Hcount. split; [done|]. split; [done|lia].
Qed.

Lemma h5py_to_numpy_items_cover_witness :
  concat (flat <$> h5py_to_numpy_items three_rows 2) = dflat three_rows ∧
  Forall (λ x, ∃ k, k ≤ 2 ∧ rows_of [] k x)
         (h5py_to_numpy_items three_rows 2) ∧
  count_rows (h5py_to_numpy_items three_rows 2) = 3.
Proof.
  apply (h5py_to_numpy_items_cover three_rows 2 3 []);
    [reflexivity|lia|].
  split; [repeat constructor; lia|reflexivity].
Defined.

(** ** One append *)

(** X2. What [append_h5py] adds can be read back: after the rows of a
    non-empty array, of the shape of the rows of the dataset, are appended
    to a dataset that may grow by them, the rows from the old leading
    extent on are the array, and the rows before are what the dataset
    held. *)
Theorem append_h5py_read_back dset x n k rest :
  dshape dset = n :: rest → 0 ≤ n → fills (n :: rest) (dflat dset) →
  rows_of rest k x →
  chunked dset = true → within (n + k) (hd None (maxshape dset)) = true →
  ∃ dset', append_h5py dset x = Return dset' ∧
    dshape dset' = (n + k) :: rest ∧
    getitem_rows dset' n (n + k) = x ∧
    getitem_rows dset' 0 n = array (n :: rest) (dflat dset).
Proof.
  intros Hd Hn [Hnonneg Hlen] (Hk & Hx & Hxlen) Hch Hmax.
  apply Forall_cons in Hnonneg as [_ Hrest].
  pose proof (H5pyFacts.product_nonneg _ Hrest) as Hrs.
  cbn [product foldr] in Hlen. fold (product rest) in Hlen.
  eexists. split; [by apply (H5pyFacts.append_h5py_rows dset x n k rest)|].
  split; [done|]. unfold getitem_rows, row_size.
  cbn [dshape dflat hd tail]. split.
  - replace (Z.min (n + k) (n + k) - n) with k by lia.
    rewrite drop_app_length' by (rewrite Hlen; lia).
    rewrite take_ge by (rewrite Hxlen; lia).
    destruct x as [sh fl]. simpl in *. by rewrite Hx.
  - replace (Z.min n (n + k) - 0) with n by lia.
    rewrite ?Z.mul_0_l. change (Z.to_nat 0) with 0%nat. rewrite drop_0.
    by rewrite take_app_length' by (rewrite Hlen; lia).
Qed.

Lemma append_h5py_read_back_witness :
  ∃ dset', append_h5py two_rows (array [1; 2] [5; 6]) = Return dset' ∧
    dshape dset' = [3; 2] ∧
    getitem_rows dset' 2 3 = array [1; 2] [5; 6] ∧
    getitem_rows dset' 0 2 = array [2; 2] [1; 2; 3; 4].
Proof.
  apply (append_h5py_read_back two_rows (array [1; 2] [5; 6]) 2 1 [2]);
    try reflexivity; try lia.
  - split; [repeat constructor; lia|reflexivity].
  - split; [lia|]. split; reflexivity.
Defined.

(** ** The loop over the chunks *)




End H5pyChunksFacts.

(* ===================================================================== *)
(** * Properties of the generator of chunks, step by step                  *)
(* ===================================================================== *)

Module H5pyStoreFacts.
Import Py H5py H5pyChunks H5pyStore.
#[local] Open Scope Z_scope.

Lemma set_same i d ds : set i d ds i = d.
Proof. unfold set. by rewrite decide_True. Qed.

Lemma set_other i d ds j : j ≠ i → set i d ds j = ds j.
Proof. intros Hj. unfold set. by rewrite decide_False. Qed.

(** Asking the generator item by item is what the loop does: the window of
    a turn is the item that [next] gives. *)
Lemma next_window t chunksize i indices ds :
  next (Suspended t chunksize (i :: indices)) ds
  = (Return (Some (getitem_rows (ds t) i (i + Z.pos chunksize))),
     Suspended t chunksize indices).
Proof. reflexivity. Qed.

(** The windows of another dataset are all appended, and that dataset is
    read as it was throughout. *)
Lemma append_windows_other rest dset t chunksize indices :
  t ≠ dset →
  ∀ ds n,
  dshape (ds dset) = n :: rest → 0 ≤ n → fills (n :: rest) (dflat (ds dset)) →
  appendable (ds dset) →
  Forall (λ x, ∃ k, rows_of rest k x)
    ((λ i, getitem_rows (ds t) i (i + Z.pos chunksize)) <$> indices) →
  ∃ ds',
    append_windows dset t chunksize indices ds = (Return (), Finished, ds') ∧
    ds' dset
    = dataset (dfile (ds dset))
        ((n + count_rows ((λ i, getitem_rows (ds t) i (i + Z.pos chunksize))
                            <$> indices)) :: rest)
        (maxshape (ds dset)) true
        (dflat (ds dset)
           ++ concat (flat <$> ((λ i, getitem_rows (ds t) i
                                        (i + Z.pos chunksize)) <$> indices)))
        (fillvalue (ds dset)) ∧
    ∀ j, j ≠ dset → ds' j = ds j.
Proof.
  intros Hdiff. induction indices as [|i indices IH];
    intros ds n Hd Hn Hfills [Hch Hmax] Hall; cbn [append_windows].
  - exists ds. split; [done|]. split; [|done].
    cbn [fmap list_fmap concat count_rows foldr].
    destruct (ds dset) as [f sh ms ch fl fv]. simpl in *.
    rewrite app_nil_r, Z.add_0_r. by subst.
  - rewrite fmap_cons in Hall.
    apply Forall_cons in Hall as [(k & Hk & Hx & Hxlen) Hall].
    pose proof Hfills as [Hnonneg Hlen].
    pose proof Hnonneg as [_ Hrest]%Forall_cons.
    pose proof (H5pyFacts.product_nonneg _ Hrest) as Hrs.
    cbn [product foldr] in Hlen. fold (product rest) in Hlen.
    rewrite (H5pyFacts.append_h5py_rows (ds dset) _ n k rest)
      by (try done; by rewrite Hmax).
    set (d1 := dataset (dfile (ds dset)) ((n + k) :: rest)
                 (maxshape (ds dset)) true
                 (dflat (ds dset)
                    ++ flat (getitem_rows (ds t) i (i + Z.pos chunksize)))
                 (fillvalue (ds dset))).
    destruct (IH (set dset d1 ds) (n + k)) as (ds' & Hrun & Hdset & Hother).
    + by rewrite set_same.
    + lia.
    + rewrite set_same. split; [constructor; [lia|done]|].
      cbn [product foldr dflat d1]. fold (product rest).
      rewrite length_app, Hlen, Hxlen. nia.
    + by rewrite set_same.
    + by rewrite set_other.
    + exists ds'. split; [done|]. split.
      * rewrite Hdset, set_same, set_other by done.
        rewrite !fmap_cons. cbn [concat count_rows foldr dfile maxshape
                                   dflat fillvalue d1].
        fold (count_rows ((λ i, getitem_rows (ds t) i (i + Z.pos chunksize))
                            <$> indices)).
        rewrite Hx. cbn [hd]. by rewrite Z.add_assoc, app_assoc.
      * intros j Hj. rewrite Hother by done. by apply set_other.
Qed.

(** X4. Copying a dataset through its chunks: appending the chunked
    sequence that [h5py_to_numpy_chunks] makes of a dataset [t] to another
    dataset, of rows of the same shape and without bound on its leading
    extent, adds every row of [t], in order, whatever the chunk size, and
    changes no other dataset; appending the same sequence once more adds
    nothing, as its generator is finished. *)
Theorem append_chunks_of_other_dataset dset t chunksize ds n m rest :
  t ≠ dset →
  dshape (ds dset) = n :: rest → 0 ≤ n → fills (n :: rest) (dflat (ds dset)) →
  appendable (ds dset) →
  dshape (ds t) = m :: rest → 0 ≤ m → fills (m :: rest) (dflat (ds t)) →
  ∃ ds',
    append_h5py_dset_chunks dset (h5py_to_numpy_chunks t chunksize) ds
    = (Return (), Finished, ds') ∧
    ds' dset
    = dataset (dfile (ds dset)) ((n + m) :: rest) (maxshape (ds dset)) true
        (dflat (ds dset) ++ dflat (ds t)) (fillvalue (ds dset)) ∧
    (∀ j, j ≠ dset → ds' j = ds j) ∧
    append_h5py_dset_chunks dset Finished ds' = (Return (), Finished, ds').
Proof.
  intros Hdiff Hd Hn Hfills Happ Ht Hm Htfills.
  destruct (H5pyChunksFacts.windows_from (ds t) chunksize m rest (Z.to_nat m)
              Ht Hm Htfills 0) as (Hcat & Hall & Hcount); [lia|lia|].
  rewrite Z.mul_0_l in Hcat. change (Z.to_nat 0) with 0%nat in Hcat.
  rewrite drop_0 in Hcat. rewrite Z.sub_0_r, Z.max_r in Hcount by done.
  fold (range m chunksize) in Hcat, Hall, Hcount.
  destruct (append_windows_other rest dset t chunksize (range m chunksize)
              Hdiff ds n Hd Hn Hfills Happ) as (ds' & Hrun & Hdset & Hother).
  { eapply Forall_impl; [exact Hall|]. intros x (k & _ & Hk). by exists k. }
  exists ds'. unfold h5py_to_numpy_chunks, h5py_to_numpy_iterator.
  cbn [append_h5py_dset_chunks]. rewrite Ht.
  split; [done|]. split; [|done].
  by rewrite Hdset, Hcat, Hcount.
Qed.

Lemma append_chunks_of_other_dataset_witness :
  ∃ ds',
    append_h5py_dset_chunks 1 (h5py_to_numpy_chunks 0 2) two_datasets
    = (Return (), Finished, ds') ∧
    ds' 1%nat
    = dataset (file "data.h5" true) [6] [None] true
        [10; 20; 30; 10; 20; 30] 0 ∧
    (∀ j, j ≠ 1%nat → ds' j = two_datasets j) ∧
    append_h5py_dset_chunks 1 Finished ds' = (Return (), Finished, ds').
Proof.
  apply (append_chunks_of_other_dataset 1 0 2 two_datasets 3 3 []);
    try reflexivity; try lia.
  - split; [repeat constructor; lia|reflexivity].
  - split; reflexivity.
  - split; [repeat constructor; lia|reflexivity].
Defined.

(** A dataset appended to itself is read while it grows: the indices are
    those of its three rows, and the second window, read after the first was
    appended, holds its third row and its first; the dataset ends with seven
    rows. *)
Example append_chunks_of_itself :
  let r := append_h5py_dset_chunks 0 (h5py_to_numpy_chunks 0 2)
             two_datasets in
  r.1 = (Return (), Finished) ∧
  r.2 0%nat = dataset (file "data.h5" true) [7] [None] true
                [10; 20; 30; 10; 20; 30; 10] 0.
Proof. split; reflexivity. Qed.

End H5pyStoreFacts.

(* ===================================================================== *)
(** * Properties of the creation of h5py datasets                          *)
(* ===================================================================== *)

Module H5pyCreateFacts.
Import Py H5py H5pyChunks H5pyCreate.
#[local] Open Scope Z_scope.

(** ** Shapes *)

Lemma to_numpy_shape_fixed (rest : list Z) : to_numpy_shape (Fixed <$> rest) = rest.
Proof.
  induction rest as [|n rest IH]; [done|].
  unfold to_numpy_shape in *. cbn. by rewrite IH.
Qed.

Lemma var_not_fixed (rest : list Z) : var ∉ (Fixed <$> rest).
Proof. by intros (n & ? & _)%list_elem_of_fmap. Qed.

Lemma elem_of_tail {A : Type} (a : A) (l : list A) : a ∈ tail l → a ∈ l.
Proof. destruct l; [done|]. apply list_elem_of_further. Qed.

(** ** The options of a new dataset *)

Lemma no_attribute_lookup (kw : kwargs) k :
  (∀ k, k ∈ h5py_attributes → kw !! k = None) →
  k ∈ h5py_attributes → kw !! k = None.
Proof. auto. Qed.

Lemma attributes_chunks : "chunks"%string ∈ h5py_attributes.
Proof. apply list_elem_of_In. simpl. tauto. Qed.

Lemma attributes_maxshape : "maxshape"%string ∈ h5py_attributes.
Proof. apply list_elem_of_In. simpl. tauto. Qed.

(** The options of the caller that h5py does not know are dropped, and the
    two defaults are what is left. *)
Lemma keyfilter_defaults (kw : kwargs) rest :
  (∀ k, k ∈ h5py_attributes → kw !! k = None) →
  keyfilter_attributes
    (<["maxshape"%string := KShape (None :: (Some <$> rest))]>
       (<["chunks"%string := KTrue]> kw))
  = default_options rest.
Proof.
  intros Hkw. apply map_eq. intros k. apply option_eq. intros v.
  unfold keyfilter_attributes, default_options.
  rewrite map_lookup_filter_Some. cbn [fst].
  pose proof attributes_maxshape as Hmax.
  pose proof attributes_chunks as Hchunks.
  destruct (decide (k = "maxshape"%string)) as [->|Hm].
  { rewrite lookup_insert_eq, lookup_insert_ne, lookup_singleton_eq by done.
    tauto. }
  destruct (decide (k = "chunks"%string)) as [->|Hc].
  { rewrite lookup_insert_ne, !lookup_insert_eq by done. tauto. }
  rewrite !lookup_insert_ne, lookup_singleton_ne by done.
  split; [|done]. intros [Hv Hin]. by rewrite (Hkw k Hin) in Hv.
Qed.

Section h5py.
Variable create_dataset : File → list Z → kwargs → outcome Dataset.

(** A datashape with [var] in front, on a free path, with none of the
    options h5py knows: the dataset is what h5py makes when asked for chunks
    and no bound on the leading extent. *)
Lemma dataset_from_dshape_fresh f datapath rest m kw ns d :
  create_dataset f (0 :: rest) (default_options rest) = Return d →
  ns !! datapath = None →
  (∀ k, k ∈ h5py_attributes → kw !! k = None) →
  dataset_from_dshape create_dataset f datapath
    (DShape (var :: (Fixed <$> rest)) m) kw ns
  = (Done (Some d), <[datapath := DSet d]> ns).
Proof.
  intros Hcd Hfree Hkw. unfold dataset_from_dshape. cbn [dims_of tail].
  rewrite bool_decide_eq_false_2 by (intros H; apply H; left).
  rewrite bool_decide_eq_true_2 by apply var_not_fixed.
  rewrite to_numpy_shape_fixed. cbn [tail].
  rewrite (Hkw _ attributes_chunks). cbn [default].
  rewrite lookup_insert_ne by done.
  rewrite (Hkw _ attributes_maxshape). cbn [default].
  rewrite keyfilter_defaults by done.
  unfold require_dataset.
  rewrite bool_decide_eq_false_2.
  - by rewrite Hfree, Hcd.
  - unfold default_options. intros [[v Hv]|[v Hv]]; vm_compute in Hv; done.
Qed.

End h5py.

(** X5. A datashape with [var] anywhere but in front is refused: for every
    file, path and keyword arguments [dataset_from_dshape] raises ValueError
    and the file is left as it was. *)
Theorem dataset_from_dshape_var_inside create_dataset f datapath ds kw ns :
  var ∈ tail (dims_of ds) →
  dataset_from_dshape create_dataset f datapath ds kw ns
  = (Fail (Std ValueError), ns).
Proof.
  intros Hvar. unfold dataset_from_dshape.
  rewrite bool_decide_eq_false_2
    by (intros Hno; by apply Hno, elem_of_tail).
  by rewrite bool_decide_eq_false_2 by (intros Hno; by apply Hno).
Qed.

Lemma dataset_from_dshape_var_inside_witness :
  dataset_from_dshape create_growable (file "data.h5" true) ["x"%string]
    (DShape [Fixed 3; var] (CType "int32")) ∅ ∅
  = (Fail (Std ValueError), ∅).
Proof.
  apply (dataset_from_dshape_var_inside create_growable).
  apply list_elem_of_here.
Defined.

(** X6. A datashape with [var] in front and fixed extents behind makes, on
    a free path, a dataset that can be appended to: when the caller names
    none of the options h5py knows, whatever else it passes, h5py is asked
    for chunks and for no bound on the leading extent; the dataset it then
    makes is stored at the path, the other paths keep what they held, and
    the rows of an array appended to it are its content. *)
Theorem dataset_from_dshape_appendable create_dataset f datapath rest m kw ns :
  create_dataset f (0 :: rest) (default_options rest)
  = Return (growable f rest) →
  ns !! datapath = None →
  (∀ k, k ∈ h5py_attributes → kw !! k = None) →
  Forall (λ n, 0 ≤ n) rest →
  ∃ d ns',
    dataset_from_dshape create_dataset f datapath
      (DShape (var :: (Fixed <$> rest)) m) kw ns = (Done (Some d), ns') ∧
    ns' !! datapath = Some (DSet d) ∧
    (∀ p, p ≠ datapath → ns' !! p = ns !! p) ∧
    ∀ x k, rows_of rest k x →
      append_h5py d x
      = Return (dataset f (k :: rest) (None :: (Some <$> rest)) true
                  (flat x) 0).
Proof.
  intros Hcd Hfree Hkw Hrest. eexists _, _.
  split; [by apply dataset_from_dshape_fresh|].
  split; [apply lookup_insert_eq|].
  split; [intros p Hp; by apply lookup_insert_ne|].
  intros x k (Hk & Hx & Hxlen).
  by rewrite (H5pyFacts.append_h5py_rows (growable f rest) x 0 k rest).
Qed.

Lemma dataset_from_dshape_appendable_witness :
  ∃ d ns',
    dataset_from_dshape create_growable (file "data.h5" true) ["x"%string]
      (DShape (var :: (Fixed <$> [2])) (CType "int32"))
      {[ "mode"%string := KStr "a" ]} ∅ = (Done (Some d), ns') ∧
    ns' !! ["x"%string] = Some (DSet d) ∧
    (∀ p, p ≠ ["x"%string] → ns' !! p = (∅ : nodes) !! p) ∧
    ∀ x k, rows_of [2] k x →
      append_h5py d x
      = Return (dataset (file "data.h5" true) (k :: [2])
                  (None :: (Some <$> [2])) true (flat x) 0).
Proof.
  apply (dataset_from_dshape_appendable create_growable).
  - reflexivity.
  - reflexivity.
  - intros k Hk. apply lookup_singleton_ne. intros <-.
    apply list_elem_of_In in Hk. simpl in Hk. intuition discriminate.
  - repeat constructor; lia.
Defined.






(** ** The datapath of a resource *)

Lemma append_cons c (s t : string) :
  (String c s +:+ t = String c (s +:+ t))%string.
Proof. reflexivity. Qed.

Lemma append_empty (t : string) : (EmptyString +:+ t = t)%string.
Proof. reflexivity. Qed.

Lemma append_assoc (a b c : string) :
  ((a +:+ b) +:+ c = a +:+ (b +:+ c))%string.
Proof.
  induction a as [|x a IH]; [done|]. by rewrite !append_cons, IH.
Qed.

Lemma length_append (a b : string) :
  String.length (a +:+ b) = (String.length a + String.length b)%nat.
Proof.
  induction a as [|x a IH]; [done|]. rewrite append_cons. simpl.
  by rewrite IH.
Qed.

(** What [rsplit] returns are the parts around a [/]. *)
Lemma rsplit_Some s a b :
  rsplit s = Some (a, b) → s = (a +:+ "/" +:+ b)%string.
Proof.
  revert a. induction s as [|c s IH]; intros a; [done|]. cbn [rsplit].
  destruct (rsplit s) as [[a' b']|] eqn:E.
  - intros [= <- <-]. by rewrite append_cons, (IH a').
  - destruct (Ascii.eqb_spec c "/") as [->|]; [|done]. by intros [= <- <-].
Qed.

Lemma rsplit_plain n : plain n → rsplit n = None.
Proof.
  intros Hn. destruct (rsplit n) as [[a b]|] eqn:E; [|done].
  apply rsplit_Some in E. by destruct (Hn a b).
Qed.

(** The last [/] is the one before a name without [/]. *)
Lemma rsplit_app s n :
  plain n → rsplit (s +:+ "/" +:+ n) = Some (s, n).
Proof.
  intros Hn. induction s as [|c s IH].
  - rewrite append_empty, append_cons, append_empty. cbn [rsplit].
    by rewrite rsplit_plain.
  - rewrite append_cons. cbn [rsplit]. by rewrite IH.
Qed.

(** A name in which [rsplit] finds no [/] has none. *)
Lemma plain_rsplit n : rsplit n = None → plain n.
Proof.
  intros Hn a b ->. revert Hn. induction a as [|c a IH].
  - rewrite append_empty, append_cons. cbn [rsplit].
    by destruct (rsplit (EmptyString +:+ b)%string) as [[??]|].
  - rewrite append_cons. cbn [rsplit].
    destruct (rsplit (a +:+ "/" +:+ b)%string) as [[??]|]; [done|].
    by intros _.
Qed.

Lemma datapath_of_app names n :
  datapath_of (names ++ [n]) = (datapath_of names +:+ "/" +:+ n)%string.
Proof.
  induction names as [|m names IH]; cbn [datapath_of foldr app].
  - rewrite append_empty. f_equal. induction n as [|c n IHn]; [done|].
    by rewrite append_cons, IHn.
  - fold (datapath_of (names ++ [n])). fold (datapath_of names).
    rewrite IH. by rewrite !append_assoc.
Qed.

Lemma nested_app names n ds :
  nested (names ++ [n]) ds = nested names (DShape [] (Record [(n, ds)])).
Proof. unfold nested. by rewrite foldr_app. Qed.

(** The loop of [resource_h5py] turns a datapath of names without [/] into
    records, one in the other, the first name outermost. *)
Lemma wrap_loop_names names :
  Forall plain names →
  ∀ ds turns, (String.length (datapath_of names) ≤ turns)%nat →
  wrap_loop turns (datapath_of names) ds = Return (nested names ds).
Proof.
  induction names as [|n names IH] using rev_ind; intros Hplain ds turns Hturns.
  - by destruct turns.
  - apply Forall_app in Hplain as [Hnames [Hn _]%Forall_cons].
    rewrite datapath_of_app in *. rewrite nested_app.
    rewrite !length_append in Hturns. simpl in Hturns.
    destruct turns as [|turns]; [lia|].
    destruct (datapath_of names +:+ "/" +:+ n)%string as [|c s] eqn:E.
    { apply (f_equal String.length) in E.
      rewrite !length_append in E. simpl in E. lia. }
    cbn [wrap_loop]. rewrite <- E, rsplit_app by done.
    apply IH; [done|lia].
Qed.

(** A datapath that does not start with [/] has no reading. *)
Lemma wrap_loop_relative turns :
  ∀ c s ds, c ≠ "/"%char → (String.length (String c s) ≤ turns)%nat →
  wrap_loop turns (String c s) ds = Raise ValueError.
Proof.
  induction turns as [|turns IH]; intros c s ds Hc Hturns;
    [simpl in Hturns; lia|].
  cbn [wrap_loop rsplit].
  destruct (rsplit s) as [[a b]|] eqn:E.
  - apply IH; [done|]. apply rsplit_Some in E. subst s.
    simpl in *. rewrite !length_append in Hturns. simpl in Hturns. lia.
  - by destruct (Ascii.eqb_spec c "/").
Qed.

(** X8. A datapath that is not empty and does not start with [/] has no
    reading: [resource_h5py] with a datashape raises ValueError for it, and
    nothing is made in the file. *)
Theorem resource_h5py_relative_datapath create_dataset uri c s ds kw ns :
  c ≠ "/"%char →
  resource_h5py create_dataset uri (Some (String c s)) (Some ds) kw ns
  = (Fail (Std ValueError), ns).
Proof.
  intros Hc. unfold resource_h5py.
  by rewrite wrap_loop_relative.
Qed.

Lemma resource_h5py_relative_datapath_witness :
  resource_h5py create_growable "data.h5" (Some "a/b"%string)
    (Some (DShape [var] (CType "int32"))) ∅ ∅
  = (Fail (Std ValueError), ∅).
Proof.
  by apply (resource_h5py_relative_datapath create_growable "data.h5" "a" "/b").
Defined.

(** X9. The datapath [/n1/.../nk] of names without [/] stands for records
    one in the other: [resource_h5py] creates the file from the datashape
    [{n1: {... {nk: ds}}}], the first name outermost. *)
Theorem resource_h5py_datapath create_dataset uri names ds kw ns :
  Forall plain names →
  resource_h5py create_dataset uri (Some (datapath_of names)) (Some ds) kw ns
  = create create_dataset uri (Some (nested names ds)) kw ns.
Proof.
  intros Hplain. unfold resource_h5py.
  by rewrite wrap_loop_names.
Qed.

Lemma resource_h5py_datapath_witness :
  resource_h5py create_growable "data.h5" (Some "/a/b"%string)
    (Some (DShape [var] (CType "int32"))) ∅ ∅
  = create create_growable "data.h5"
      (Some (DShape [] (Record [("a"%string, DShape [] (Record
         [("b"%string, DShape [var] (CType "int32"))]))]))) ∅ ∅.
Proof.
  apply (resource_h5py_datapath create_growable "data.h5"
           ["a"%string; "b"%string]).
  repeat constructor; by apply plain_rsplit.
Defined.

(** ** A new file *)

Lemma split_slash_plain n : plain n → split_slash n = [n].
Proof.
  induction n as [|c n IH]; intros Hn; [done|]. cbn [split_slash].
  destruct (Ascii.eqb_spec c "/") as [->|Hc].
  - by destruct (Hn EmptyString n).
  - rewrite IH; [done|]. intros a b ->.
    by destruct (Hn (String c a) b).
Qed.

(** A member name is a path of one name. *)
Lemma components_member n : member_name n → components n = [n].
Proof.
  intros (Hplain & Hne & Hdot). unfold components.
  rewrite split_slash_plain by done.
  rewrite filter_cons_True by done. done.
Qed.

Lemma child_member group n : member_name n → child group n = group ++ [n].
Proof. intros Hn. unfold child. by rewrite components_member. Qed.

Lemma not_passed (kw : kwargs) k :
  (∀ k, k ∈ passed_already → kw !! k = None) →
  k ∈ passed_already → ¬ is_Some (kw !! k).
Proof. intros Hkw Hk. rewrite (Hkw k Hk). by intros [? [=]]. Qed.

Lemma create_from_datashape_field create_dataset f group name sub kw ns :
  (∀ k, k ∈ passed_already → kw !! k = None) →
  create_from_datashape create_dataset f group
    (DShape [] (Record [(name, sub)])) kw ns
  = if isrecord sub then
      match require_group (child group name) ns with
      | (Return _, ns1) =>
          match create_from_datashape create_dataset f (child group name)
                  sub (delete "name"%string kw) ns1 with
          | (Done _, ns2) => (Done (), ns2)
          | (Fail e, ns2) => (Fail e, ns2)
          end
      | (Raise e, ns1) => (Fail (Std e), ns1)
      end
    else
      match dataset_from_dshape create_dataset f (child group name) sub
              (delete "name"%string kw) ns
      with
      | (Done _, ns1) => (Done (), ns1)
      | (Fail e, ns1) => (Fail e, ns1)
      end.
Proof.
  intros Hkw. cbn [create_from_datashape].
  rewrite bool_decide_eq_false_2.
  2:{ intros [H|H]; revert H; apply not_passed; try done;
        apply list_elem_of_In; simpl; tauto. }
  destruct (isrecord sub); [done|].
  rewrite bool_decide_eq_false_2; [done|].
  intros [H|H]; revert H; rewrite lookup_delete_ne by done;
    apply not_passed; try done; apply list_elem_of_In; simpl; tauto.
Qed.

Lemma nested_cons n names ds :
  nested (n :: names) ds = DShape [] (Record [(n, nested names ds)]).
Proof. reflexivity. Qed.

(** Records one in the other around a datashape with [var] in front: a
    group for every name but the last and the dataset for the last, when
    nothing is in their place. *)
Lemma create_from_datashape_nested create_dataset f rest m names :
  create_dataset f (0 :: rest) (default_options rest)
  = Return (growable f rest) →
  Forall member_name names → names ≠ [] →
  ∀ kw group ns,
  (∀ k, k ∈ h5py_attributes → kw !! k = None) →
  (∀ k, k ∈ passed_already → kw !! k = None) →
  (∀ p, p ≠ [] → ns !! (group ++ p) = None) →
  create_from_datashape create_dataset f group
    (nested names (DShape (var :: (Fixed <$> rest)) m)) kw ns
  = (Done (),
     <[group ++ names := DSet (growable f rest)]>
       (with_groups (groups_above group names) ns)).
Proof.
  intros Hcd.
  induction names as [|n names IH];
    intros Hnames Hne kw group ns Hkw Hpassed Hfree; [done|].
  apply Forall_cons in Hnames as [Hn Hnames].
  assert (∀ k, k ∈ h5py_attributes → delete "name"%string kw !! k = None)
    as Hkw'.
  { intros k Hk. apply lookup_delete_None. right. by apply Hkw. }
  assert (∀ k, k ∈ passed_already → delete "name"%string kw !! k = None)
    as Hpassed'.
  { intros k Hk. apply lookup_delete_None. right. by apply Hpassed. }
  rewrite nested_cons, create_from_datashape_field, child_member by done.
  destruct names as [|n' names].
  - cbn [nested foldr isrecord].
    by rewrite (dataset_from_dshape_fresh _ _ _ _ _ _ _ _ Hcd)
      by (try done; by apply Hfree).
  - rewrite nested_cons. cbn [isrecord]. rewrite <- nested_cons.
    unfold require_group. rewrite (Hfree [n]) by done.
    rewrite IH; [|done|done|done|done|].
    + cbn [groups_above with_groups foldl].
      by rewrite <- (app_assoc group [n]).
    + intros p Hp. rewrite lookup_insert_ne.
      * rewrite <- app_assoc. by apply Hfree.
      * rewrite <- (app_nil_r (group ++ [n])) at 1.
        intros Heq%(inj (app _)). by destruct Hp.
Qed.

(** X10. A resource with the datapath [/n1/.../nk] of member names and a
    datashape with [var] in front, on a new file, for keyword arguments
    that name no option of h5py and no argument that the calls on the way
    pass themselves: the file is given its root group, a group for every
    name but the last, each in the one before, and at the datapath the
    dataset h5py makes when asked for chunks and for no bound on the
    leading extent; nothing else is made. *)
Theorem resource_h5py_new_file create_dataset uri names rest m kw :
  create_dataset (file uri true) (0 :: rest) (default_options rest)
  = Return (growable (file uri true) rest) →
  (∀ k, k ∈ h5py_attributes → kw !! k = None) →
  (∀ k, k ∈ passed_already → kw !! k = None) →
  Forall member_name names → names ≠ [] →
  resource_h5py create_dataset uri (Some (datapath_of names))
    (Some (DShape (var :: (Fixed <$> rest)) m)) kw ∅
  = (Done (file uri true),
     <[names := DSet (growable (file uri true) rest)]>
       (with_groups (groups_above [] names) {[ [] := Group ]})).
Proof.
  intros Hcd Hkw Hpassed Hnames Hne. unfold resource_h5py.
  assert (Forall plain names) as Hplain.
  { eapply Forall_impl; [exact Hnames|]. by intros n (? & _). }
  rewrite wrap_loop_names by done.
  unfold create. rewrite bool_decide_eq_false_2.
  2:{ intros [H|[H|H]]; revert H; apply not_passed; try done;
        apply list_elem_of_In; simpl; tauto. }
  rewrite (create_from_datashape_nested _ _ _ _ _ Hcd Hnames Hne);
    [done|done|done|].
  intros p Hp. rewrite lookup_insert_ne, lookup_empty; [done|].
  intros Heq. by destruct Hp.
Qed.

Lemma member_name_rsplit n :
  rsplit n = None → n ≠ EmptyString → n ≠ "."%string → member_name n.
Proof. intros Hn Hne Hdot. split; [by apply plain_rsplit|done]. Qed.

Lemma resource_h5py_new_file_witness :
  resource_h5py create_growable "data.h5" (Some "/a/b"%string)
    (Some (DShape [var; Fixed 2] (CType "int32")))
    {[ "mode"%string := KStr "a" ]} ∅
  = (Done (file "data.h5" true),
     {[ ["a"; "b"]%string := DSet (growable (file "data.h5" true) [2]);
        ["a"%string] := Group;
        [] := Group ]}).
Proof.
  apply (resource_h5py_new_file create_growable "data.h5"
           ["a"; "b"]%string [2] (CType "int32")
           {[ "mode"%string := KStr "a" ]}).
  - reflexivity.
  - intros k Hk. apply lookup_singleton_ne. intros <-.
    apply list_elem_of_In in Hk. simpl in Hk. intuition discriminate.
  - intros k Hk. apply lookup_singleton_ne. intros <-.
    apply list_elem_of_In in Hk. simpl in Hk. intuition discriminate.
  - repeat constructor; by apply member_name_rsplit.
  - done.
Defined.

(** A datapath that ends in [/] names the group before it: the group is
    made, the dataset is not, and the call raises AttributeError. *)
Example resource_h5py_trailing_slash :
  resource_h5py create_growable "data.h5" (Some "/a/"%string)
    (Some (DShape [var; Fixed 2] (CType "int32"))) ∅ ∅
  = (Fail (Std AttributeError), {[ ["a"%string] := Group; [] := Group ]}).
Proof. reflexivity. Qed.

(** ** cleanup of a file *)

(** X20. [cleanup_file] never raises and leaves the file closed, whether it
    was open or closed already; cleaning up once more changes nothing. *)
Theorem cleanup_file_closes f :
  ∃ f', cleanup_file f = Return f' ∧
        is_open f' = false ∧ filename f' = filename f ∧
        cleanup_file f' = Return f'.
Proof.
  destruct f as [fname [|]]; unfold cleanup_file, File_close; simpl; eauto.
Qed.

End H5pyCreateFacts.

(* ===================================================================== *)
(** * Properties of the chunked appends of the hdfstore backend            *)
(* ===================================================================== *)

Module HDFStoreChunksFacts.
Import Py HDFStore HDFStoreEmpty.
#[local] Open Scope Z_scope.

(** ** The selection by chunks *)

(** From the row [i] on, the frames of the selection hold the rest of the
    rows. *)
Lemma select_from cols (l : list (list Z)) (chunksize : positive) fuel :
  ∀ i, 0 ≤ i → Z.of_nat (length l) - i ≤ Z.of_nat fuel →
  concat (rows <$> ((λ i, frame cols
                            (take (Pos.to_nat chunksize)
                               (drop (Z.to_nat i) l)))
                      <$> range_from fuel i (Z.of_nat (length l))
                            (Z.pos chunksize)))
  = drop (Z.to_nat i) l.
Proof.
  induction fuel as [|fuel IH]; intros i Hi Hfuel; cbn [range_from].
  - rewrite drop_ge by lia. done.
  - destruct (Z.ltb_spec i (Z.of_nat (length l))) as [Hin|Hin].
    + rewrite !fmap_cons. cbn [concat rows]. rewrite IH by lia.
      replace (Z.to_nat (i + Z.pos chunksize))
        with (Z.to_nat i + Pos.to_nat chunksize)%nat by lia.
      apply H5pyChunksFacts.take_drop_window.
    + rewrite drop_ge by lia. done.
Qed.

(** The frames of the selection have the columns of the table and hold its
    rows, all of them and in order. *)
Lemma select_chunks_cover t chunksize :
  Forall (λ chunk, columns chunk = tcolumns t) (select_chunks t chunksize) ∧
  concat (rows <$> select_chunks t chunksize) = trows t.
Proof.
  unfold select_chunks, range. split.
  - apply Forall_fmap, Forall_true. done.
  - rewrite select_from by lia. done.
Qed.

(** Frames with the columns of the table are all appended; the table keeps
    its name and columns and is left indexed. *)
Lemma append_chunks_all data t :
  Forall (λ chunk, columns chunk = tcolumns t) data →
  ∃ t', append_chunks_to_hdfstore data t = (Return (), t') ∧
        trows t' = trows t ++ concat (rows <$> data) ∧
        tcolumns t' = tcolumns t ∧ name t' = name t ∧
        autoindex t' = true ∧ dirty t' = false.
Proof.
  intros Hcols. unfold append_chunks_to_hdfstore, ensure_indexing.
  destruct (HDFStoreFacts.append_each_returns data (set_autoindex false t)
              Hcols) as [Hret Hrows].
  pose proof (HDFStoreFacts.append_each_keeps data (set_autoindex false t))
    as (Hname & Hkeep & _).
  destruct (append_each data (set_autoindex false t)) as [r t1].
  simpl in Hret, Hrows, Hkeep, Hname. subst r. eexists.
  split; [done|]. by simpl.
Qed.

(** X11. Appending a chunked sequence of frames to a table: when every
    frame has the columns of the table, the rows of all the frames are
    added after those of the table, in the order of the chunks, and the
    table is left with autoindexing on, whether it was on before or not,
    and with no index left to rebuild. *)
Theorem append_chunks_to_hdfstore_appends_all data t :
  Forall (λ chunk, columns chunk = tcolumns t) data →
  ∃ t', append_chunks_to_hdfstore data t = (Return (), t') ∧
        trows t' = trows t ++ concat (rows <$> data) ∧
        tcolumns t' = tcolumns t ∧
        autoindex t' = true ∧ dirty t' = false.
Proof.
  intros Hcols.
  destruct (append_chunks_all data t Hcols)
    as (t' & Hrun & Hrows & Hkeep & _ & Hauto & Hdirty).
  by exists t'.
Qed.

Lemma append_chunks_to_hdfstore_appends_all_witness :
  ∃ t', append_chunks_to_hdfstore [fitting; fitting]
          (set_autoindex false populated) = (Return (), t') ∧
        trows t' = trows populated ++ concat (rows <$> [fitting; fitting]) ∧
        tcolumns t' = tcolumns populated ∧
        autoindex t' = true ∧ dirty t' = false.
Proof.
  apply (append_chunks_to_hdfstore_appends_all [fitting; fitting]
           (set_autoindex false populated)).
  repeat constructor.
Defined.

(** X12. Copying a table through its chunks: appending the chunked sequence
    that [hdfstore_to_dataframe_chunks] makes of a table [s] to another
    table with the same columns adds every row of [s], in order, whatever
    the chunk size; the sequence can be iterated again, and appending it
    once more adds the rows of [s] once more. *)
Theorem append_chunks_of_table s t chunksize (h : Chunks.heap DataFrame) :
  tcolumns s = tcolumns t →
  let c := hdfstore_to_dataframe_chunks s chunksize in
  let first := Chunks.iterate c h in
  let second := Chunks.iterate c first.2 in
  ∃ t1 t2,
    append_chunks_to_hdfstore first.1 t = (Return (), t1) ∧
    trows t1 = trows t ++ trows s ∧
    append_chunks_to_hdfstore second.1 t1 = (Return (), t2) ∧
    trows t2 = (trows t ++ trows s) ++ trows s.
Proof.
  intros Hcols c first second.
  pose proof (HDFStoreFacts.hdfstore_chunks_restartable s chunksize h)
    as Hiter.
  cbv zeta in Hiter. fold c in Hiter. fold first in Hiter.
  destruct first as [l1 h1]. cbn [snd] in second. fold second in Hiter.
  destruct second as [l2 h2]. destruct Hiter as [-> ->]. cbn [fst].
  destruct (select_chunks_cover s chunksize) as [Hall Hrows].
  rewrite Hcols in Hall.
  destruct (append_chunks_all _ t Hall)
    as (t1 & Ht1 & Hrows1 & Hcols1 & _).
  rewrite <- Hcols1 in Hall.
  destruct (append_chunks_all _ t1 Hall) as (t2 & Ht2 & Hrows2 & _).
  exists t1, t2. rewrite Hrows in Hrows1, Hrows2.
  rewrite Hrows1 in Hrows2. done.
Qed.

Lemma append_chunks_of_table_witness :
  let t := table "copy" ["volume"; "planet"] [[7; 7]] true false 0 in
  let c := hdfstore_to_dataframe_chunks populated 1 in
  let first := Chunks.iterate c ∅ in
  let second := Chunks.iterate c first.2 in
  ∃ t1 t2,
    append_chunks_to_hdfstore first.1 t = (Return (), t1) ∧
    trows t1 = trows t ++ trows populated ∧
    append_chunks_to_hdfstore second.1 t1 = (Return (), t2) ∧
    trows t2 = (trows t ++ trows populated) ++ trows populated.
Proof.
  apply (append_chunks_of_table populated
           (table "copy" ["volume"; "planet"] [[7; 7]] true false 0) 1 ∅).
  reflexivity.
Defined.

(** ** A table not yet created *)

(** X13. A chunked sequence of no chunk is refused, with IndexError, by a
    table not yet created, and nothing is made; a table that exists accepts
    it and keeps its rows. *)
Theorem append_no_chunk name t :
  append_chunks_to_empty name [] = (Raise IndexError, NoTable name) ∧
  ∃ t', append_chunks_to_hdfstore [] t = (Return (), t') ∧
        trows t' = trows t.
Proof.
  split; [done|]. eexists. split; reflexivity.
Qed.

(** X14. Appending chunks to a table not yet created: when the first frame
    is not empty and every frame has its columns, the table is made of the
    rows of all the frames, in order, with autoindexing on and no index
    left to rebuild.  It is made without data columns, where appending the
    first frame through [append] makes them. *)
Theorem append_chunks_to_empty_creates name d data :
  empty d = false →
  Forall (λ chunk, columns chunk = columns d) data →
  (∃ t', append_chunks_to_empty name (d :: data)
         = (Return (), WithTable t' false) ∧
         HDFStore.name t' = name ∧
         tcolumns t' = columns d ∧
         trows t' = concat (rows <$> d :: data) ∧
         autoindex t' = true ∧ dirty t' = false) ∧
  append_frame_to_empty name d = WithTable (new_table name d) true.
Proof.
  intros Hd Hcols. split.
  - unfold append_chunks_to_empty, append_frame_by_name. rewrite Hd.
    unfold append_chunks_by_name.
    destruct (append_chunks_all data (new_table name d) Hcols)
      as (t' & -> & Hrows & Hkeep & Hname & Hauto & Hdirty).
    by exists t'.
  - unfold append_frame_to_empty. by rewrite Hd.
Qed.

Lemma append_chunks_to_empty_creates_witness :
  (∃ t', append_chunks_to_empty "bar" [fitting; fitting]
         = (Return (), WithTable t' false) ∧
         HDFStore.name t' = "bar"%string ∧
         tcolumns t' = columns fitting ∧
         trows t' = concat (rows <$> [fitting; fitting]) ∧
         autoindex t' = true ∧ dirty t' = false) ∧
  append_frame_to_empty "bar" fitting
  = WithTable (new_table "bar" fitting) true.
Proof.
  apply (append_chunks_to_empty_creates "bar" fitting [fitting]).
  - reflexivity.
  - repeat constructor.
Defined.

End HDFStoreChunksFacts.

(* ===================================================================== *)
(** * More properties of the aws backend                                   *)
(* ===================================================================== *)

Module AwsSampleFacts.
Import Py Aws.

(** ** Where the sample is cut *)

(** An occurrence that none follows is the one [rindex] finds. *)
Lemma rindex_is_last sub raw i :
  i ≤ length raw → sub `prefix_of` drop i raw →
  (∀ j, i < j ≤ length raw → ¬ sub `prefix_of` drop j raw) →
  rindex sub raw = Some i.
Proof.
  intros Hi Hocc Hlast. destruct (rindex sub raw) as [i'|] eqn:E.
  - pose proof (AwsFacts.rindex_Some _ _ _ E) as [Hi' Hocc'].
    destruct (lt_eq_lt_dec i' i) as [[Hlt| ->]|Hgt]; [|done|].
    + by destruct (AwsFacts.rindex_last _ _ _ i E).
    + by destruct (Hlast i').
  - by destruct (AwsFacts.rindex_None _ _ i E).
Qed.

(** Where nothing occurs, [rindex] finds nothing. *)
Lemma rindex_nowhere sub raw :
  (∀ j, j ≤ length raw → ¬ sub `prefix_of` drop j raw) →
  rindex sub raw = None.
Proof.
  intros Hno. destruct (rindex sub raw) as [i|] eqn:E; [|done].
  apply AwsFacts.rindex_Some in E as [Hi Hocc]. by destruct (Hno i).
Qed.

(** An occurrence in a prefix is an occurrence in the whole. *)
Lemma occurs_in_longer (sub raw1 raw2 : bytes) i :
  raw1 `prefix_of` raw2 → i ≤ length raw1 →
  sub `prefix_of` drop i raw1 → sub `prefix_of` drop i raw2.
Proof.
  intros [k ->] Hi [k' Hk']. exists (k' ++ k).
  rewrite drop_app_le by done. by rewrite Hk', <- app_assoc.
Qed.

(** In a longer text the last occurrence is not earlier. *)
Lemma rindex_longer (sub raw1 raw2 : bytes) i :
  raw1 `prefix_of` raw2 → rindex sub raw1 = Some i →
  ∃ j, rindex sub raw2 = Some j ∧ i ≤ j.
Proof.
  intros Hpre Hi. pose proof (AwsFacts.rindex_Some _ _ _ Hi) as [Hlen Hocc].
  pose proof (occurs_in_longer _ _ _ _ Hpre Hlen Hocc) as Hocc2.
  pose proof (prefix_length _ _ Hpre) as Hlen2.
  destruct (rindex sub raw2) as [j|] eqn:E.
  - exists j. split; [done|]. destruct (le_lt_dec i j) as [|Hlt]; [done|].
    destruct (AwsFacts.rindex_last _ _ _ i E); [lia|done].
  - destruct (AwsFacts.rindex_None _ _ i E); [lia|done].
Qed.

(** The sample of the bytes [raw]: what [sample_s3_csv] writes. *)
Lemma sample_s3_csv_Return object length fn fs r :
  sample_s3_csv object length fn fs = Return r →
  ∃ i, r = (fn, <[fn := take i (get_range object length)]> fs) ∧
       i < List.length (get_range object length) ∧
       match rindex [CR; LF] (get_range object length) with
       | Some i' => i' = i
       | None => rindex [LF] (get_range object length) = Some i
       end.
Proof.
  unfold sample_s3_csv. set (raw := get_range object length).
  assert (∀ sub i, sub ≠ [] → rindex sub raw = Some i →
            i < List.length raw) as Hin.
  { intros sub i Hsub [Hi [k Hk]]%AwsFacts.rindex_Some.
    apply (f_equal List.length) in Hk.
    rewrite length_drop, length_app in Hk.
    destruct sub; [done|]. simpl in Hk. lia. }
  destruct (rindex [CR; LF] raw) as [i|] eqn:Hcrlf; simpl.
  - intros [= <-]. exists i. split; [done|]. split; [|done].
    by apply (Hin [CR; LF]).
  - destruct (rindex [LF] raw) as [i|] eqn:Hlf; simpl; [|done].
    intros [= <-]. exists i. split; [done|]. split; [|done].
    by apply (Hin [LF]).
Qed.

(** X15. The sample ends before the last carriage-return-linefeed of the
    bytes fetched, whatever follows it: when the bytes are [head], a
    carriage-return-linefeed and a [tail] that holds no other one, the file
    yielded holds [head], and the lines of [tail] are left out even where
    they end in a linefeed.  For an object fetched whole that ends in a
    carriage-return-linefeed, the sample is the object without it. *)
Theorem sample_s3_csv_last_crlf object length fn fs head tail :
  get_range object length = head ++ [CR; LF] ++ tail →
  (∀ a b, tail ≠ a ++ [CR; LF] ++ b) →
  sample_s3_csv object length fn fs = Return (fn, <[fn := head]> fs).
Proof.
  intros Hraw Htail. unfold sample_s3_csv. rewrite Hraw.
  rewrite (rindex_is_last [CR; LF] _ (List.length head)).
  - simpl. by rewrite take_app_length.
  - rewrite length_app. lia.
  - rewrite drop_app_length. by exists tail.
  - intros j Hj [k Hk].
    rewrite drop_app_ge in Hk by lia.
    destruct (j - List.length head) as [|[|n]] eqn:E; [lia| |].
    + simpl in Hk. by destruct tail.
    + simpl in Hk. destruct (Htail (take n tail) k).
      simpl. by rewrite <- Hk, take_drop.
Qed.

Lemma sample_s3_csv_last_crlf_witness :
  sample_s3_csv (list_ascii_of_string "a,b" ++ [CR; LF]
                   ++ list_ascii_of_string "1,2" ++ [LF]) 100 "tmp.csv" ∅
  = Return ("tmp.csv", <["tmp.csv" := list_ascii_of_string "a,b"]> ∅).
Proof.
  apply (sample_s3_csv_last_crlf _ 100 "tmp.csv" ∅
           (list_ascii_of_string "a,b")
           (list_ascii_of_string "1,2" ++ [LF])).
  - reflexivity.
  - intros a b Hab.
    assert (CR ∈ list_ascii_of_string "1,2" ++ [LF]) as Hin.
    { rewrite Hab. rewrite elem_of_app. right. apply list_elem_of_here. }
    apply list_elem_of_In in Hin. simpl in Hin. unfold CR, LF in Hin.
    intuition discriminate.
Defined.

(** X16. Where the bytes fetched hold no carriage return, the sample ends
    before their last linefeed: when they are [head], a linefeed and a
    [tail] without linefeed, the file yielded holds [head].  For an object
    fetched whole that ends in a linefeed, the sample is the object without
    it; when its last line has no linefeed, that line is left out. *)
Theorem sample_s3_csv_last_lf object length fn fs head tail :
  get_range object length = head ++ [LF] ++ tail →
  CR ∉ get_range object length → LF ∉ tail →
  sample_s3_csv object length fn fs = Return (fn, <[fn := head]> fs).
Proof.
  intros Hraw Hcr Hlf. unfold sample_s3_csv.
  rewrite rindex_nowhere.
  2:{ intros j _ [k Hk]. apply Hcr.
      rewrite <- (take_drop j (get_range object length)), Hk.
      rewrite elem_of_app. right. apply list_elem_of_here. }
  rewrite Hraw.
  rewrite (rindex_is_last [LF] _ (List.length head)).
  - simpl. by rewrite take_app_length.
  - rewrite length_app. lia.
  - rewrite drop_app_length. by exists tail.
  - intros j Hj [k Hk].
    rewrite drop_app_ge in Hk by lia.
    destruct (j - List.length head) as [|n] eqn:E; [lia|].
    simpl in Hk. apply Hlf.
    rewrite <- (take_drop n tail), Hk.
    rewrite elem_of_app. right. apply list_elem_of_here.
Qed.

Lemma sample_s3_csv_last_lf_witness :
  sample_s3_csv (list_ascii_of_string "a,b" ++ [LF]
                   ++ list_ascii_of_string "1,2") 100 "tmp.csv" ∅
  = Return ("tmp.csv", <["tmp.csv" := list_ascii_of_string "a,b"]> ∅).
Proof.
  apply (sample_s3_csv_last_lf _ 100 "tmp.csv" ∅
           (list_ascii_of_string "a,b") (list_ascii_of_string "1,2")).
  - reflexivity.
  - intros Hin. apply list_elem_of_In in Hin. simpl in Hin.
    unfold CR, LF in Hin. intuition discriminate.
  - intros Hin. apply list_elem_of_In in Hin. simpl in Hin.
    unfold LF in Hin. intuition discriminate.
Defined.

(** X17. A longer sample holds what a shorter one holds: when
    [sample_s3_csv] yields a file for the length [length1], it yields one
    for every larger length, whatever the names of the two temporary files
    and the files around them, and the bytes of the first file are the
    first bytes of the second. *)
Theorem sample_s3_csv_longer object length1 length2 fn1 fs1 fn2 fs2 r1 :
  length1 ≤ length2 →
  sample_s3_csv object length1 fn1 fs1 = Return r1 →
  ∃ sample1 sample2,
    r1 = (fn1, <[fn1 := sample1]> fs1) ∧
    sample_s3_csv object length2 fn2 fs2
    = Return (fn2, <[fn2 := sample2]> fs2) ∧
    sample1 `prefix_of` sample2.
Proof.
  intros Hle Hr1.
  apply sample_s3_csv_Return in Hr1 as (i & -> & Hi & Hindex).
  set (raw1 := get_range object length1) in *.
  set (raw2 := get_range object length2).
  assert (raw1 = take (S length1) raw2) as Hraw1.
  { unfold raw1, raw2, get_range. rewrite take_take. f_equal. lia. }
  assert (raw1 `prefix_of` raw2) as Hpre.
  { rewrite Hraw1. apply prefix_take. }
  assert (∀ j, i ≤ j → take i raw1 `prefix_of` take j raw2) as Htake.
  { intros j Hj. rewrite Hraw1, take_take.
    replace (i `min` S length1) with i
      by (rewrite Hraw1, length_take in Hi; lia).
    exists (take (j - i) (drop i raw2)).
    rewrite take_take_drop. f_equal. lia. }
  assert (∃ j, i ≤ j ∧
            sample_s3_csv object length2 fn2 fs2
            = Return (fn2, <[fn2 := take j raw2]> fs2)) as (j & Hj & Hrun).
  { unfold sample_s3_csv. fold raw2.
    destruct (rindex [CR; LF] raw1) as [i'|] eqn:Hcrlf.
    - subst i'.
      destruct (rindex_longer _ _ _ _ Hpre Hcrlf) as (j & -> & Hj).
      by exists j.
    - destruct (rindex_longer _ _ _ _ Hpre Hindex) as (j & Hlf & Hj).
      destruct (rindex [CR; LF] raw2) as [j'|] eqn:Hcrlf2.
      + exists j'. split; [|done].
        apply AwsFacts.rindex_Some in Hcrlf2 as [Hj' [k Hk]].
        destruct (le_lt_dec i j') as [|Hlt]; [done|].
        destruct (AwsFacts.rindex_None _ _ j' Hcrlf); [lia|].
        assert (raw2 = (take j' raw2 ++ [CR; LF]) ++ k) as Hsplit.
        { rewrite <- (take_drop j' raw2) at 1. rewrite Hk.
          by rewrite <- app_assoc. }
        assert (List.length raw1 = S length1 `min` List.length raw2)
          as Hlen1 by (by rewrite Hraw1, length_take).
        exists (take (S length1 - (j' + 2)) k).
        rewrite Hraw1, Hsplit, take_app_ge;
          rewrite length_app, length_take; simpl; [|lia].
        rewrite <- app_assoc, drop_app_length' by (rewrite length_take; lia).
        simpl. do 3 f_equal. lia.
      + rewrite Hlf. by exists j. }
  eexists _, _. split; [done|]. split; [exact Hrun|].
  by apply Htake.
Qed.

Lemma sample_s3_csv_longer_witness :
  ∃ sample1 sample2,
    ("tmp1.csv"%string, {[ "tmp1.csv"%string := list_ascii_of_string "a,b" ]})
    = ("tmp1.csv"%string, <["tmp1.csv"%string := sample1]> (∅ : files)) ∧
    sample_s3_csv three_lines 8 "tmp2.csv" ∅
    = Return ("tmp2.csv"%string, <["tmp2.csv"%string := sample2]> ∅) ∧
    sample1 `prefix_of` sample2.
Proof.
  apply (sample_s3_csv_longer three_lines 4 8 "tmp1.csv" ∅ "tmp2.csv" ∅).
  - lia.
  - reflexivity.
Defined.

(** ** The connections made *)

(** The connections of a reachable memo table are numbered below the
    number of connections made. *)
Lemma reachable_made m :
  reachable m → ∀ c conn, memo m c = Some conn → conn_id conn < made m.
Proof.
  induction 1 as [|s c m Hm IH]; intros c' conn; simpl; [done|].
  unfold get_s3_connection.
  destruct (memo m c) as [hit|] eqn:Hc; simpl; [apply IH|].
  case_decide as Hcc.
  - intros [= <-]. simpl. lia.
  - intros Hc'. apply IH in Hc'. lia.
Qed.

(** X18. Calls with different arguments never share a connection: in the
    memo table that any calls of [get_s3_connection] lead to, the
    connections stored for two different combinations of arguments are two
    different objects, even when they hold the same credentials. *)
Theorem get_s3_connection_distinct m c1 c2 conn1 conn2 :
  reachable m →
  memo m c1 = Some conn1 → memo m c2 = Some conn2 →
  c1 ≠ c2 → conn_id conn1 ≠ conn_id conn2.
Proof.
  intros Hm. revert c1 c2 conn1 conn2.
  induction Hm as [|s c m Hm IH]; intros c1 c2 conn1 conn2; simpl; [done|].
  unfold get_s3_connection.
  destruct (memo m c) as [hit|] eqn:Hc; simpl; [apply IH|].
  pose proof (reachable_made m Hm) as Hmade.
  case_decide as H1; case_decide as H2.
  - congruence.
  - intros [= <-] H2' _. apply Hmade in H2'. simpl. lia.
  - intros H1' [= <-] _. apply Hmade in H1'. simpl. lia.
  - apply IH.
Qed.

Lemma get_s3_connection_distinct_witness :
  let first := get_s3_connection no_settings (call None None None) no_memo in
  let second := get_s3_connection no_settings (call None None (Some false))
                  first.2 in
  conn_key first.1 = conn_key second.1 ∧
  conn_secret first.1 = conn_secret second.1 ∧
  conn_anon first.1 = conn_anon second.1 ∧
  conn_id first.1 ≠ conn_id second.1.
Proof.
  intros first second. split; [reflexivity|]. split; [reflexivity|].
  split; [reflexivity|].
  apply (get_s3_connection_distinct second.2 (call None None None)
           (call None None (Some false))).
  - repeat constructor.
  - reflexivity.
  - reflexivity.
  - discriminate.
Defined.

End AwsSampleFacts.

(* ===================================================================== *)
(** * Properties of the helper of the dask tests                           *)
(* ===================================================================== *)

Module TestCoreFacts.
Import TestCore.

Section contains.
Context {K : Type} `{Countable K} {V : Type} `{EqDecision V}.
Implicit Types a b : gmap K (option V).

Lemma contains_spec a b :
  contains a b = true ↔ ∀ k v, b !! k = Some v → dict_get a k = v.
Proof.
  unfold contains. rewrite forallb_forall. split.
  - intros Hall k v Hk.
    apply (bool_decide_eq_true_1 _), (Hall (k, v)).
    by apply list_elem_of_In, elem_of_map_to_list.
  - intros Hall [k v] Hin. apply bool_decide_eq_true_2. simpl.
    by apply Hall, elem_of_map_to_list, list_elem_of_In.
Qed.

(** X19. [contains a b] tells whether every item of [b] is an item of [a],
    but for the items of [b] whose value is [None]: such an item is also
    found in a dictionary [a] that does not have its key.  So, for a [b]
    without [None] among its values, [contains a b] is the inclusion of [b]
    in [a]. *)
Theorem contains_items a b :
  (contains a b = true ↔
   ∀ k v, b !! k = Some v → a !! k = Some v ∨ (v = None ∧ a !! k = None)) ∧
  ((∀ k, b !! k ≠ Some None) → (contains a b = true ↔ b ⊆ a)).
Proof.
  assert (contains a b = true ↔
    ∀ k v, b !! k = Some v → a !! k = Some v ∨ (v = None ∧ a !! k = None))
    as Hitems.
  { rewrite contains_spec. unfold dict_get. split; intros Hall k v Hk.
    - specialize (Hall k v Hk). destruct (a !! k) as [w|]; simpl in Hall.
      + left. by rewrite Hall.
      + right. by split.
    - destruct (Hall k v Hk) as [->|[-> ->]]; done. }
  split; [done|]. intros Hnone. rewrite Hitems, map_subseteq_spec.
  split; intros Hall k v Hk.
  - destruct (Hall k v Hk) as [|[-> _]]; [done|]. by destruct (Hnone k).
  - left. by apply Hall.
Qed.

End contains.

Lemma contains_items_witness :
  contains (V:=Z) {[ "x" := Some 1%Z; "y" := Some 2%Z ]} {[ "x" := Some 1%Z ]}
  = true
  ↔ ({[ "x" := Some 1%Z ]} : gmap string (option Z))
    ⊆ {[ "x" := Some 1%Z; "y" := Some 2%Z ]}.
Proof.
  apply (contains_items (V:=Z) {[ "x" := Some 1%Z; "y" := Some 2%Z ]}
           {[ "x" := Some 1%Z ]}).
  intros k Hk. apply lookup_singleton_Some in Hk as [_ [=]].
Defined.

(** The examples of the docstring, and a missing key found. *)
Example contains_examples :
  contains (V:=Z) {[ "x" := Some 1%Z; "y" := Some 2%Z ]} {[ "x" := Some 1%Z ]}
  = true ∧
  contains (V:=Z) {[ "x" := Some 1%Z; "y" := Some 2%Z ]} {[ "z" := Some 3%Z ]}
  = false ∧
  contains (V:=Z) {[ "x" := Some 1%Z ]} {[ "z" := None ]} = true.
Proof. by vm_compute. Qed.

End TestCoreFacts.

(* ===================================================================== *)
(** * Properties of the memoized connection                                *)
(* ===================================================================== *)

Module AwsConnectionFacts.
Import Py AwsConnection.












End AwsConnectionFacts.
